(** * Repayment allocation of the SACCO lending system

    A shallow embedding of the business logic of
    [repayments/models.py] (installment status derivation, payment
    allocation, loan ledger update), [loans/models.py] (interest
    calculation, completion percentage) and [loans/admin.py] (the bulk
    action that completes loans).

    Conventions.
    - Every money column is a [DecimalField(decimal_places=2)]; a value is
      represented by its number of hundredths, an integer of type [Z]
      ([Decimal('1.00')] is [100]).  Addition, subtraction, comparison,
      [min] and [max] of such decimals are exact.
    - A [DateField] is the ordinal of the day, [date.today()] is the
      parameter [today]; a nullable date is an [option].
    - A [CharField] with choices is the Python string it stores.
    - A foreign key is the primary key of the row it points to. *)

From Stdlib Require Import ZArith List String Bool Lia QArith Sorted Permutation.
Import ListNotations.

Open Scope string_scope.
Open Scope list_scope.
Open Scope Z_scope.

(** ** Installments: [class RepaymentSchedule] *)

Module RepaymentSchedule.

Record t : Type := mk {
  id : Z;
  loan : Z;
  installment_number : Z;
  due_date : Z;
  (* Amounts *)
  principal_amount : Z;
  interest_amount : Z;
  total_amount : Z;
  (* Payments *)
  principal_paid : Z;
  interest_paid : Z;
  penalty_paid : Z;
  total_paid : Z;
  (* Outstanding *)
  principal_outstanding : Z;
  interest_outstanding : Z;
  penalty_outstanding : Z;
  total_outstanding : Z;
  status : string;
  payment_date : option Z;
  days_overdue : Z
}.

(** The assignments at the top of [save]: the outstanding columns are
    recomputed, [penalty_outstanding] is read but never assigned. *)
Definition recompute_outstanding (s : t) : t :=
  let principal_outstanding' := principal_amount s - principal_paid s in
  let interest_outstanding' := interest_amount s - interest_paid s in
  mk (id s) (loan s) (installment_number s) (due_date s)
     (principal_amount s) (interest_amount s) (total_amount s)
     (principal_paid s) (interest_paid s) (penalty_paid s) (total_paid s)
     principal_outstanding' interest_outstanding' (penalty_outstanding s)
     (principal_outstanding' + interest_outstanding'
      + penalty_outstanding s - penalty_paid s)
     (status s) (payment_date s) (days_overdue s).

Definition set_status (st : string) (pd : option Z) (od : Z) (s : t) : t :=
  mk (id s) (loan s) (installment_number s) (due_date s)
     (principal_amount s) (interest_amount s) (total_amount s)
     (principal_paid s) (interest_paid s) (penalty_paid s) (total_paid s)
     (principal_outstanding s) (interest_outstanding s)
     (penalty_outstanding s) (total_outstanding s)
     st pd od.

(** The [if]/[elif] chain of [save] that derives the status. *)
Definition update_status (today : Z) (s : t) : t :=
  if total_amount s + penalty_outstanding s <=? total_paid s then
    set_status "paid"
      (match payment_date s with
       | None => Some today
       | Some d => Some d
       end)
      (days_overdue s) s
  else if 0 <? total_paid s then
    set_status "partial" (payment_date s) (days_overdue s) s
  else if due_date s <? today then
    set_status "overdue" (payment_date s) (today - due_date s) s
  else
    set_status "pending" (payment_date s) (days_overdue s) s.

(** [RepaymentSchedule.save]: the value written to the row. *)
Definition save (today : Z) (s : t) : t :=
  update_status today (recompute_outstanding s).

(** The status as the specification words it, for comparison with [save]. *)
Definition spec_status (today : Z) (s : t) : string :=
  if total_paid s >=? total_amount s + penalty_outstanding s then "paid"
  else if total_paid s >? 0 then "partial"
  else if due_date s <? today then "overdue"
  else "pending".

(** The payment columns updated by the allocator before it saves the row. *)
Definition add_payments (penalty_payment interest_payment principal_payment : Z)
    (s : t) : t :=
  mk (id s) (loan s) (installment_number s) (due_date s)
     (principal_amount s) (interest_amount s) (total_amount s)
     (principal_paid s + principal_payment)
     (interest_paid s + interest_payment)
     (penalty_paid s + penalty_payment)
     (total_paid s + (penalty_payment + interest_payment + principal_payment))
     (principal_outstanding s) (interest_outstanding s)
     (penalty_outstanding s) (total_outstanding s)
     (status s) (payment_date s) (days_overdue s).

End RepaymentSchedule.

(** ** The loan ledger: [class Loan] *)

Module Loan.

(** The columns of a loan that the ledger logic reads or writes; the
    identifiers, dates and staff references are left out. *)
Record t : Type := mk {
  id : Z;
  principal_amount : Z;
  total_interest : Z;
  status : string;
  outstanding_balance : Z;
  outstanding_interest : Z;
  total_paid : Z;
  penalty_balance : Z
}.

(** [Loan.save] fills in the loan number and the two derived dates when
    they are missing and writes the row: no ledger column changes. *)
Definition save (l : t) : t := l.

Definition set_status (st : string) (l : t) : t :=
  mk (id l) (principal_amount l) (total_interest l) st
     (outstanding_balance l) (outstanding_interest l)
     (total_paid l) (penalty_balance l).

(** The sum that [update_loan_balances] compares with the tolerance. *)
Definition combined_outstanding (l : t) : Z :=
  outstanding_balance l + outstanding_interest l + penalty_balance l.

(** [Loan.completion_percentage].  The quotient of two decimals is taken
    as the exact rational; Python rounds it to the 28 significant digits
    of the decimal context when it has more. *)
Definition completion_percentage (l : t) : Q :=
  if principal_amount l + total_interest l =? 0 then 0%Q
  else
    let total_loan := principal_amount l + total_interest l in
    ((inject_Z (total_paid l) / inject_Z total_loan) * 100)%Q.

End Loan.

(** ** The admin action [LoanAdmin.mark_as_completed] *)

Module LoanAdmin.

(** [queryset.filter(status='active').update(status='completed')]: the
    rows after the update and the number of rows updated. *)
Definition mark_as_completed (queryset : list Loan.t) : list Loan.t * Z :=
  (map (fun l => if Loan.status l =? "active"
                 then Loan.set_status "completed" l else l)%string queryset,
   Z.of_nat (List.length (filter (fun l => Loan.status l =? "active")%string queryset))).

End LoanAdmin.

(** ** Payments: [class RepaymentTransaction] *)

Module RepaymentTransaction.

Module RS := RepaymentSchedule.

Record t : Type := mk {
  loan : Z;
  amount : Z;
  (* Allocation *)
  principal_amount : Z;
  interest_amount : Z;
  penalty_amount : Z;
  processing_fee : Z;
  status : string
}.

(** [validators=[MinValueValidator(0)]] on [amount]: the validator, run
    by [full_clean] (the admin form), raises when the value is below the
    limit.  [save] itself runs no validator. *)
Inductive ValidationError : Type := min_value.

Definition validate_amount (amount : Z) : ValidationError + Z :=
  if amount <? 0 then inl min_value else inr amount.

(** *** [update_loan_balances], the ledger part *)

Definition update_ledger (self : t) (loan : Loan.t) : Loan.t :=
  let total_paid := Loan.total_paid loan + amount self in
  let outstanding_balance := Loan.outstanding_balance loan - principal_amount self in
  let outstanding_interest := Loan.outstanding_interest loan - interest_amount self in
  let penalty_balance := Loan.penalty_balance loan - penalty_amount self in
  (* Ensure balances don't go negative *)
  let outstanding_balance := Z.max outstanding_balance 0 in
  let outstanding_interest := Z.max outstanding_interest 0 in
  let penalty_balance := Z.max penalty_balance 0 in
  (* Check if loan is fully paid *)
  let total_outstanding := outstanding_balance + outstanding_interest + penalty_balance in
  let status := if total_outstanding <=? 100 then "completed" else Loan.status loan in
  Loan.save
    (Loan.mk (Loan.id loan) (Loan.principal_amount loan) (Loan.total_interest loan)
       status outstanding_balance outstanding_interest total_paid penalty_balance).

(** *** [allocate_to_schedules] *)

(** [status__in=['pending', 'partial', 'overdue']] *)
Definition status_in (choices : list string) (s : RS.t) : bool :=
  existsb (String.eqb (RS.status s)) choices.

(** [order_by('due_date')]: rows in ascending due date.  The database
    leaves the order of rows with equal due dates open; here they keep
    their table order. *)
Fixpoint insert_by_due_date (s : RS.t) (l : list RS.t) : list RS.t :=
  match l with
  | [] => [s]
  | x :: l' =>
      if RS.due_date s <=? RS.due_date x then s :: x :: l'
      else x :: insert_by_due_date s l'
  end.

Definition order_by_due_date (l : list RS.t) : list RS.t :=
  fold_right insert_by_due_date [] l.

(** The queryset [schedules]. *)
Definition schedules (loan_id : Z) (table : list RS.t) : list RS.t :=
  order_by_due_date
    (filter (fun s => (RS.loan s =? loan_id)
                      && status_in ["pending"; "partial"; "overdue"] s) table).

(** What one pass of the loop body records for a row it saves. *)
Record allocation : Type := mk_allocation {
  schedule : RS.t;              (* the row as it was read *)
  penalty_payment : Z;
  interest_payment : Z;
  principal_payment : Z;
  saved : RS.t                  (* the row as [schedule.save()] wrote it *)
}.

Definition allocated (a : allocation) : Z :=
  penalty_payment a + interest_payment a + principal_payment a.

Definition schedule_outstanding (schedule : RS.t) : Z :=
  RS.total_outstanding schedule + RS.penalty_outstanding schedule.

(** The body of [if payment_for_schedule > 0:]. *)
Definition waterfall (today payment_for_schedule : Z) (schedule : RS.t)
    : allocation :=
  (* penalties first, then interest, then principal *)
  let penalty_payment := Z.min payment_for_schedule (RS.penalty_outstanding schedule) in
  let payment_for_schedule := payment_for_schedule - penalty_payment in
  let interest_payment := Z.min payment_for_schedule (RS.interest_outstanding schedule) in
  let payment_for_schedule := payment_for_schedule - interest_payment in
  let principal_payment := Z.min payment_for_schedule (RS.principal_outstanding schedule) in
  mk_allocation schedule penalty_payment interest_payment principal_payment
    (RS.save today
       (RS.add_payments penalty_payment interest_payment principal_payment schedule)).

(** One row of the loop, reached with [remaining_amount > 0]: [None] when
    [payment_for_schedule > 0] fails and the row is left alone. *)
Definition allocate_step (today remaining_amount : Z) (schedule : RS.t)
    : option allocation :=
  let payment_for_schedule := Z.min remaining_amount (schedule_outstanding schedule) in
  if 0 <? payment_for_schedule
  then Some (waterfall today payment_for_schedule schedule)
  else None.

(** The [for] loop: the allocations made, in order, and the final value
    of [remaining_amount]. *)
Fixpoint allocate_loop (today remaining_amount : Z) (schedules : list RS.t)
    : list allocation * Z :=
  match schedules with
  | [] => ([], remaining_amount)
  | schedule :: rest =>
      if remaining_amount <=? 0 then ([], remaining_amount)   (* break *)
      else
        match allocate_step today remaining_amount schedule with
        | Some a =>
            let '(done, r) :=
              allocate_loop today (remaining_amount - allocated a) rest in
            (a :: done, r)
        | None => allocate_loop today remaining_amount rest
        end
  end.

(** The table after the rows saved by the loop have been written, each
    over the row with its primary key. *)
Definition write_back (done : list allocation) (table : list RS.t) : list RS.t :=
  map (fun row =>
         match find (fun a => RS.id (saved a) =? RS.id row) done with
         | Some a => saved a
         | None => row
         end) table.

Definition allocations (today : Z) (self : t) (table : list RS.t)
    : list allocation :=
  fst (allocate_loop today (amount self) (schedules (loan self) table)).

Definition allocate_to_schedules (today : Z) (self : t) (table : list RS.t)
    : list RS.t :=
  write_back (allocations today self table) table.

(** *** [update_loan_balances] and [save] on the stored state: the loan
    row of the payment and the installment table. *)

Definition update_loan_balances (today : Z) (self : t)
    (db : Loan.t * list RS.t) : Loan.t * list RS.t :=
  let loan := update_ledger self (fst db) in
  (* Update repayment schedules *)
  (loan, allocate_to_schedules today self (snd db)).

(** [save]: the transaction number and the transaction's own row are not
    modelled. *)
Definition save (today : Z) (self : t) (db : Loan.t * list RS.t)
    : Loan.t * list RS.t :=
  if (status self =? "completed")%string
  then update_loan_balances today self db
  else db.

End RepaymentTransaction.

(** ** Python numbers, as far as [calculated_interest] mixes them

    The interest formulas mix [int], [Decimal] and [float] operands and
    Python dispatches each operator on the operand types.  The arithmetic
    of [Decimal] (rounded to the precision of the decimal context) is a
    parameter; of a [float] only the type is kept. *)

Module Py.

Inductive exn : Type := TypeError | ZeroDivisionError.

Definition result (A : Type) : Type := (exn + A)%type.
Definition ret {A : Type} (a : A) : result A := inr a.
Definition raise {A : Type} (e : exn) : result A := inl e.
Definition bind {A B : Type} (m : result A) (k : A -> result B) : result B :=
  match m with
  | inl e => inl e
  | inr a => k a
  end.

Declare Scope py_scope.
Delimit Scope py_scope with py.
Notation "x <- m ;; k" := (bind m (fun x => k))
  (at level 61, m at next level, right associativity) : py_scope.

(** The operations of [decimal.Decimal] used by the formulas. *)
Class DecimalOps (decimal : Type) : Type := {
  of_int : Z -> decimal;
  dec_add : decimal -> decimal -> decimal;
  dec_sub : decimal -> decimal -> decimal;
  dec_mul : decimal -> decimal -> decimal;
  dec_div : decimal -> decimal -> decimal;
  dec_pow : decimal -> decimal -> decimal;
  is_zero : decimal -> bool
}.

Section Values.
Context {decimal : Type} `{DecimalOps decimal}.

Inductive value : Type :=
| Int (z : Z)
| Decimal (d : decimal)
| Float.

(** [a + b], [a - b], [a * b]: an [int] operand is converted next to a
    [Decimal]; a [Decimal] and a [float] do not mix. *)
Definition arith (int_op : Z -> Z -> Z) (dec_op : decimal -> decimal -> decimal)
    (a b : value) : result value :=
  match a, b with
  | Int x, Int y => ret (Int (int_op x y))
  | Int x, Decimal d => ret (Decimal (dec_op (of_int x) d))
  | Decimal d, Int y => ret (Decimal (dec_op d (of_int y)))
  | Decimal d, Decimal e => ret (Decimal (dec_op d e))
  | Int _, Float | Float, Int _ | Float, Float => ret Float
  | Decimal _, Float | Float, Decimal _ => raise TypeError
  end.

Definition add : value -> value -> result value := arith Z.add dec_add.
Definition sub : value -> value -> result value := arith Z.sub dec_sub.
Definition mul : value -> value -> result value := arith Z.mul dec_mul.

(** [a / b]: true division, a [float] for two [int]s.  The divisors of
    the formulas are the literals [100] and [12]. *)
Definition truediv (a b : value) : result value :=
  match a, b with
  | Int _, Int y => if y =? 0 then raise ZeroDivisionError else ret Float
  | Int x, Decimal d => ret (Decimal (dec_div (of_int x) d))
  | Decimal d, Int y => ret (Decimal (dec_div d (of_int y)))
  | Decimal d, Decimal e => ret (Decimal (dec_div d e))
  | Int _, Float | Float, Int _ | Float, Float => ret Float
  | Decimal _, Float | Float, Decimal _ => raise TypeError
  end.

(** [a ** b] with a [Decimal] base, the only one the formulas have. *)
Definition dec_power (d : decimal) (b : value) : result value :=
  match b with
  | Int y => ret (Decimal (dec_pow d (of_int y)))
  | Decimal e => ret (Decimal (dec_pow d e))
  | Float => raise TypeError
  end.

End Values.

Arguments value : clear implicits.

End Py.

(** ** Loan applications: [class LoanType], [class LoanApplication] *)

Module LoanApplication.

Import Py.
Local Open Scope py_scope.

Section Interest.
Context {decimal : Type} `{DecimalOps decimal}.

Record LoanType : Type := mk_loan_type {
  interest_rate : decimal;
  interest_calculation_method : string;
  processing_fee_rate : decimal
}.

Record t : Type := mk {
  loan_type : LoanType;
  requested_amount : decimal;
  approved_amount : option decimal;
  term_months : Z
}.

(** [not self.approved_amount]: [None] and a zero decimal are false. *)
Definition truthy (d : option decimal) : bool :=
  match d with
  | None => false
  | Some a => negb (is_zero a)
  end.

(** The property [calculated_interest]. *)
Definition calculated_interest (self : t) : result (value decimal) :=
  let amount :=
    if negb (truthy (approved_amount self)) then requested_amount self
    else match approved_amount self with
         | Some a => a
         | None => requested_amount self
         end in
  rate <- truediv (Decimal (interest_rate (loan_type self))) (Int 100) ;;
  if (interest_calculation_method (loan_type self) =? "flat")%string then
    x <- mul (Decimal amount) rate ;;
    y <- truediv (Int (term_months self)) (Int 12) ;;
    mul x y
  else if (interest_calculation_method (loan_type self) =? "reducing")%string then
    (* Simplified reducing balance calculation *)
    monthly_rate <- truediv rate (Int 12) ;;
    x <- mul (Decimal amount) monthly_rate ;;
    mul x (Int (term_months self))
  else
    (* Compound interest *)
    b <- add (Int 1) rate ;;
    e <- truediv (Int (term_months self)) (Int 12) ;;
    p <- match b with
         | Decimal d => dec_power d e
         | _ => raise TypeError
         end ;;
    q <- sub p (Int 1) ;;
    mul (Decimal amount) q.

(** The amount the formulas start from. *)
Definition base_amount (self : t) : decimal :=
  match approved_amount self with
  | Some a => if is_zero a then requested_amount self else a
  | None => requested_amount self
  end.

End Interest.

Arguments LoanType : clear implicits.
Arguments t : clear implicits.

End LoanApplication.

(** Exact rational arithmetic as an instance of the decimal operations,
    to run the formulas on concrete figures.  The power is taken for the
    integer part of the exponent; no formula reaches it. *)
#[export] Instance Q_decimal : Py.DecimalOps Q := {|
  Py.of_int := inject_Z;
  Py.dec_add := Qplus;
  Py.dec_sub := Qminus;
  Py.dec_mul := Qmult;
  Py.dec_div := Qdiv;
  Py.dec_pow := fun b e => Qpower b (Qnum e / Z.pos (Qden e));
  Py.is_zero := fun q => Qeq_bool q 0
|}.

Module RS := RepaymentSchedule.
Module RT := RepaymentTransaction.

Definition due_le (x y : RS.t) : Prop := RS.due_date x <= RS.due_date y.

(** ** Worked examples and the readings of the claims that are compared with the code *)

(** The reading of C7 for the penalty: some penalty due [d] with
    [penalty_outstanding = d - penalty_paid] on the saved row. *)
Definition penalty_due_minus_paid (penalty_due : Z) (s : RS.t) : Prop :=
  RS.penalty_outstanding s = penalty_due - RS.penalty_paid s.

(** The installment of the worked example: principal 1000.00, interest
    200.00 and penalty 50.00 outstanding, nothing paid, due on day 100. *)
Definition installment_1250 : RS.t :=
  RS.mk 1 7 1 100
    100000 20000 120000
    0 0 0 0
    100000 20000 5000 125000
    "overdue" None 20.

(** The rows saved by a payment of [amount] met by the single row [s]. *)
Definition pay_installment (today amount : Z) (s : RS.t) : option RS.t :=
  option_map RT.saved (RT.allocate_step today amount s).



(** An installment of 500.00 (400.00 principal, 100.00 interest), nothing
    paid, no penalty. *)
Definition installment_500 (id number due_date : Z) : RS.t :=
  RS.mk id 7 number due_date
    40000 10000 50000
    0 0 0 0
    40000 10000 0 50000
    "pending" None 0.

Definition payment (loan amount : Z) : RT.t :=
  RT.mk loan amount 0 0 0 0 "completed".

(** Two installments of 500.00 due on days 31 and 59, stored with the
    later one first. *)
Definition january : RS.t := installment_500 1 1 31.
Definition february : RS.t := installment_500 2 2 59.

(** An overdue installment with an unpaid penalty followed by a later one. *)
Definition penalty_then_later : list RS.t :=
  [installment_500 2 2 130; installment_1250].

(** The sum of one part over the allocations of a payment. *)
Definition sum_of (part : RT.allocation -> Z) (done : list RT.allocation) : Z :=
  fold_right (fun a acc => part a + acc) 0 done.

(** The reading of C3: the three balances of the ledger go down by what
    the payment allocated to principal, interest and penalty, clamped at
    zero. *)
Definition ledger_reflects_allocations
    (today : Z) (self : RT.t) (db : Loan.t * list RS.t) : Prop :=
  let done := RT.allocations today self (snd db) in
  let loan' := fst (RT.save today self db) in
  Loan.outstanding_balance loan'
  = Z.max (Loan.outstanding_balance (fst db) - sum_of RT.principal_payment done) 0
  /\ Loan.outstanding_interest loan'
     = Z.max (Loan.outstanding_interest (fst db) - sum_of RT.interest_payment done) 0
  /\ Loan.penalty_balance loan'
     = Z.max (Loan.penalty_balance (fst db) - sum_of RT.penalty_payment done) 0.

(** The loan of the worked installment: 1000.00 principal, 200.00
    interest and 50.00 penalty outstanding. *)
Definition loan_1250 : Loan.t :=
  Loan.mk 7 100000 20000 "active" 100000 20000 0 5000.

(** The reading of C4 on a stored loan. *)
Definition completed_iff_settled (l : Loan.t) : Prop :=
  Loan.status l = "completed" <-> Loan.combined_outstanding l <= 100.

(** An active loan with 5600.00 outstanding. *)
Definition loan_5600 : Loan.t :=
  Loan.mk 8 500000 60000 "active" 500000 60000 0 0.

(** The reading of C9: the amount is refused by validation and saving the
    payment changes nothing. *)
Definition rejected_untouched
    (today : Z) (self : RT.t) (db : Loan.t * list RS.t) : Prop :=
  (exists e, RT.validate_amount (RT.amount self) = inl e)
  /\ RT.save today self db = db.

(** A completed payment of 0.00 that declares 100.00 of principal. *)
Definition zero_payment : RT.t := RT.mk 7 0 10000 0 0 0 "completed".

(** A loan of 1000.00 with 200.00 interest, nothing paid. *)
Definition loan_1200 : Loan.t :=
  Loan.mk 7 100000 20000 "active" 100000 20000 0 0.

(** Applications for 1000.00 over 12 months at 12.00 percent. *)
Definition application (method : string) : LoanApplication.t Q :=
  LoanApplication.mk
    (LoanApplication.mk_loan_type (12 # 1)%Q method (1 # 1)%Q)
    (1000 # 1)%Q None 12.

(** ** Further readings of the stored rows *)

(** The outstanding columns of a row are the ones [save] computes. *)
Definition saved_row (s : RS.t) : Prop :=
  RS.principal_outstanding s = RS.principal_amount s - RS.principal_paid s
  /\ RS.interest_outstanding s = RS.interest_amount s - RS.interest_paid s
  /\ RS.total_outstanding s
     = RS.principal_outstanding s + RS.interest_outstanding s
       + RS.penalty_outstanding s - RS.penalty_paid s.

(** An installment without penalty that still has something to pay and
    whose totals are the sums of their parts. *)
Definition open_row (s : RS.t) : Prop :=
  saved_row s
  /\ RS.penalty_outstanding s = 0
  /\ RS.penalty_paid s = 0
  /\ RS.total_amount s = RS.principal_amount s + RS.interest_amount s
  /\ RS.total_paid s = RS.principal_paid s + RS.interest_paid s
  /\ 0 <= RS.principal_outstanding s
  /\ 0 <= RS.interest_outstanding s
  /\ 0 < RS.principal_outstanding s + RS.interest_outstanding s.

(** The rows the queryset of the allocator leaves out. *)
Definition not_selected (loan_id : Z) (s : RS.t) : Prop :=
  RS.loan s <> loan_id
  \/ (RS.status s <> "pending" /\ RS.status s <> "partial"
      /\ RS.status s <> "overdue").

(** A paid installment of loan 7 and an open installment of loan 9. *)
Definition paid_row : RS.t :=
  RS.mk 3 7 3 10
    40000 10000 50000
    40000 10000 0 50000
    0 0 0 0
    "paid" (Some 9) 0.

Definition other_loan_row : RS.t :=
  RS.mk 4 9 1 31
    40000 10000 50000
    0 0 0 0
    40000 10000 0 50000
    "pending" None 0.

(** The sum of [schedule_outstanding] over the rows of a queryset. *)
Definition total_schedule_outstanding (l : list RS.t) : Z :=
  fold_right (fun s acc => RT.schedule_outstanding s + acc) 0 l.

(** ** The properties of [class RepaymentSchedule] *)

Module ScheduleProperty.

(** [is_overdue] *)
Definition is_overdue (today : Z) (self : RS.t) : bool :=
  (RS.due_date self <? today) && RT.status_in ["pending"; "partial"] self.

Section Penalty.
Context {decimal : Type} `{Py.DecimalOps decimal}.

(** The decimal that a money column holds, given in hundredths. *)
Variable decimal_of_hundredths : Z -> decimal.
(** [Decimal(str(settings.SACCO_SETTINGS.get('PENALTY_RATE', 5.0)))]: the
    settings are not part of the sources read here. *)
Variable PENALTY_RATE : decimal.
(** [penalty.quantize(Decimal('0.01'))] of the [decimal] module. *)
Variable quantize : Py.value decimal -> Py.result (Py.value decimal).

(** [penalty_amount] *)
Definition penalty_amount (today : Z) (self : RS.t) : Py.result (Py.value decimal) :=
  if negb (is_overdue today self) then
    Py.ret (Py.Decimal (decimal_of_hundredths 0))
  else
    Py.bind (Py.truediv (Py.Decimal PENALTY_RATE) (Py.Int 100)) (fun penalty_rate =>
    Py.bind (Py.mul (Py.Decimal (decimal_of_hundredths (RS.total_outstanding self)))
               penalty_rate) (fun x =>
    Py.bind (Py.truediv (Py.Int (RS.days_overdue self)) (Py.Int 30)) (fun y =>
    Py.bind (Py.mul x y) (fun penalty =>
    quantize penalty)))).

End Penalty.

End ScheduleProperty.

(** ** The properties [days_overdue] and [is_overdue] of [class Loan] *)

Module LoanProperty.

(** [RepaymentSchedule.objects.filter(loan=self, due_date__lt=date.today(),
    status='pending')] *)
Definition overdue_schedules (today : Z) (self : Loan.t) (table : list RS.t)
    : list RS.t :=
  filter (fun s => (RS.loan s =? Loan.id self)
                   && (RS.due_date s <? today)
                   && (RS.status s =? "pending")%string) table.

(** [days_overdue]; [earliest('due_date')] is the first row in ascending
    due date. *)
Definition days_overdue (today : Z) (self : Loan.t) (table : list RS.t) : Z :=
  if negb (Loan.status self =? "active")%string then 0
  else
    match RT.order_by_due_date (overdue_schedules today self table) with
    | earliest_overdue :: _ => today - RS.due_date earliest_overdue
    | [] => 0
    end.

Definition is_overdue (today : Z) (self : Loan.t) (table : list RS.t) : bool :=
  0 <? days_overdue today self table.

End LoanProperty.

(** ** Numbering of applications, loans and payments

    [LoanApplication.save], [Loan.save] and [RepaymentTransaction.save]
    give a row without a number the number after the latest row whose
    number starts with the prefix ([LA2024], [LN2024], [TXN20240131]): the
    integer read from the last four characters, plus one, filled with
    zeros to four characters. *)

From Stdlib Require Import Ascii.
From Stdlib Require DecimalString.

Module Numbering.

Import DecimalString.

(** [s[-4:]]: the last four characters, the whole string when shorter. *)
Definition last4 (s : string) : string :=
  substring (String.length s - 4) 4 s.

(** [int(s)] for a string of ASCII digits.  [None] stands for the
    [ValueError] of the empty string and of a string with another
    character; the signs, blanks and underscores that [int] also reads do
    not occur in the numbers written here and are not modelled. *)
Definition int (s : string) : option Z :=
  option_map Z.of_uint (NilZero.uint_of_string s).

(** [str(n)] *)
Definition str (n : Z) : string := NilZero.string_of_int (Z.to_int n).

Fixpoint zeros (n : nat) : string :=
  match n with
  | O => ""
  | S n' => String "0"%char (zeros n')
  end.

(** [s.zfill(width)]: zeros are put after a leading sign. *)
Definition zfill (width : nat) (s : string) : string :=
  if (width <=? String.length s)%nat then s
  else
    match s with
    | String c rest =>
        if (Ascii.eqb c "+"%char || Ascii.eqb c "-"%char)
        then String c (zeros (width - String.length s) ++ rest)%string
        else (zeros (width - String.length s) ++ s)%string
    | EmptyString => zeros width
    end.

(** The number given to a new row; [last] is the number of
    [filter(number__startswith=prefix).order_by('-id').first()]. *)
Definition next_number (prefix : string) (last : option string) : option string :=
  match last with
  | Some number =>
      match int (last4 number) with
      | Some last_number => Some (prefix ++ zfill 4 (str (last_number + 1)))%string
      | None => None
      end
  | None => Some (prefix ++ "0001")%string
  end.

Definition suffix_ok (m : Z) : bool :=
  (String.length (zfill 4 (str m)) =? 4)%nat
  && match int (zfill 4 (str m)) with
     | Some k => k =? m
     | None => false
     end.

End Numbering.

(** ** The dates filled in by [Loan.save] *)

Module LoanDates.

Inductive exn : Type := OverflowError.

(** A [date] is its proleptic ordinal, from 1 ([date.min]) to 3652059
    ([date.max], 9999-12-31). *)
Definition max_ordinal : Z := 3652059.

(** [d + timedelta(days=n)]: the [timedelta] takes at most 999999999 days
    and the sum must be a date. *)
Definition add_days (d n : Z) : exn + Z :=
  if (Z.abs n <=? 999999999) && (1 <=? d + n) && (d + n <=? max_ordinal)
  then inr (d + n) else inl OverflowError.

Record t : Type := mk {
  term_months : Z;
  disbursement_date : option Z;
  first_repayment_date : option Z;
  maturity_date : option Z
}.

(** The two [if]s of [Loan.save] on the dates. *)
Definition save (self : t) : exn + t :=
  match
    (match disbursement_date self, maturity_date self with
     | Some d, None =>
         match add_days d (term_months self * 30) with
         | inr m => inr (Some m)
         | inl e => inl e
         end
     | _, m => inr m
     end)
  with
  | inl e => inl e
  | inr maturity =>
      match
        (match disbursement_date self, first_repayment_date self with
         | Some d, None =>
             match add_days d 30 with
             | inr f => inr (Some f)
             | inl e => inl e
             end
         | _, f => inr f
         end)
      with
      | inl e => inl e
      | inr first =>
          inr (mk (term_months self) (disbursement_date self) first maturity)
      end
  end.

End LoanDates.

(** ** Fee and repayment of a loan application *)

Module Repayment.

Import Py.

(** What the three properties can raise: the errors of the interest
    formula and the two signals of a decimal division by zero, which the
    default decimal context traps. *)
Inductive error : Type :=
| Raised (e : exn)
| DivisionByZero       (* decimal.DivisionByZero: x / 0 with x not zero *)
| InvalidOperation.    (* decimal.InvalidOperation: 0 / 0 *)

Section Properties.
Context {decimal : Type} `{DecimalOps decimal}.

(** [self.approved_amount or self.requested_amount] *)
Definition amount_or (self : LoanApplication.t decimal) : decimal :=
  if LoanApplication.truthy (LoanApplication.approved_amount self)
  then match LoanApplication.approved_amount self with
       | Some a => a
       | None => LoanApplication.requested_amount self
       end
  else LoanApplication.requested_amount self.

(** [processing_fee] *)
Definition processing_fee (self : LoanApplication.t decimal)
    : result (value decimal) :=
  let amount := amount_or self in
  bind (truediv (Decimal (LoanApplication.processing_fee_rate
                            (LoanApplication.loan_type self))) (Int 100))
       (fun rate => mul (Decimal amount) rate).

(** [total_repayment] *)
Definition total_repayment (self : LoanApplication.t decimal)
    : result (value decimal) :=
  let amount := amount_or self in
  bind (LoanApplication.calculated_interest self)
       (fun interest => add (Decimal amount) interest).

(** [x / n] for the quotient of [monthly_repayment], with the division by
    zero of a [Decimal] written out. *)
Definition divide (x : value decimal) (n : Z) : error + value decimal :=
  match x with
  | Decimal d =>
      if n =? 0
      then inl (if is_zero d then InvalidOperation else DivisionByZero)
      else inr (Decimal (dec_div d (of_int n)))
  | Int _ | Float =>
      if n =? 0 then inl (Raised ZeroDivisionError) else inr Float
  end.

(** [monthly_repayment] *)
Definition monthly_repayment (self : LoanApplication.t decimal)
    : error + value decimal :=
  match total_repayment self with
  | inl e => inl (Raised e)
  | inr total => divide total (LoanApplication.term_months self)
  end.

End Properties.

End Repayment.

(** ** The admin actions on loans and on loan applications *)

Module LoanActions.

(** [LoanAdmin.mark_as_defaulted] *)
Definition mark_as_defaulted (queryset : list Loan.t) : list Loan.t * Z :=
  (map (fun l => if Loan.status l =? "active"
                 then Loan.set_status "defaulted" l else l)%string queryset,
   Z.of_nat (List.length (filter (fun l => Loan.status l =? "active")%string queryset))).

(** The number of active loans among the rows. *)
Definition active_count (queryset : list Loan.t) : Z :=
  Z.of_nat (List.length (filter (fun l => Loan.status l =? "active")%string queryset)).

End LoanActions.

Module ApplicationAdmin.

(** The columns of a loan application that the admin actions write. *)
Record t : Type := mk {
  status : string;
  assigned_to : option Z;
  reviewed_by : option Z;
  approved_by : option Z
}.

(** [approve_applications] *)
Definition approve_applications (user : Z) (queryset : list t) : list t :=
  map (fun a => if (status a =? "under_review")%string
                then mk "approved" (assigned_to a) (reviewed_by a) (Some user)
                else a) queryset.

(** [reject_applications] *)
Definition reject_applications (user : Z) (queryset : list t) : list t :=
  map (fun a => if (status a =? "under_review")%string
                then mk "rejected" (assigned_to a) (Some user) (approved_by a)
                else a) queryset.

(** [assign_to_me]: the rows and the number of rows updated. *)
Definition assign_to_me (user : Z) (queryset : list t) : list t * Z :=
  (map (fun a => mk (status a) (Some user) (reviewed_by a) (approved_by a)) queryset,
   Z.of_nat (List.length queryset)).

(** [mark_under_review]: the rows and the number of rows updated. *)
Definition mark_under_review (user : Z) (queryset : list t) : list t * Z :=
  (map (fun a => if (status a =? "submitted")%string
                 then mk "under_review" (assigned_to a) (Some user) (approved_by a)
                 else a) queryset,
   Z.of_nat (List.length (filter (fun a => status a =? "submitted")%string queryset))).

(** An action chosen by user [user] in the admin. *)
Inductive action : Type :=
| Approve (user : Z)
| Reject (user : Z)
| Assign (user : Z)
| Review (user : Z).

(** What an action does to one row. *)
Definition step (act : action) (a : t) : t :=
  match act with
  | Approve u =>
      if (status a =? "under_review")%string
      then mk "approved" (assigned_to a) (reviewed_by a) (Some u) else a
  | Reject u =>
      if (status a =? "under_review")%string
      then mk "rejected" (assigned_to a) (Some u) (approved_by a) else a
  | Assign u => mk (status a) (Some u) (reviewed_by a) (approved_by a)
  | Review u =>
      if (status a =? "submitted")%string
      then mk "under_review" (assigned_to a) (Some u) (approved_by a) else a
  end.

Definition is_review (act : action) : bool :=
  match act with
  | Review _ => true
  | _ => false
  end.

Definition run (act : action) (queryset : list t) : list t :=
  match act with
  | Approve u => approve_applications u queryset
  | Reject u => reject_applications u queryset
  | Assign u => fst (assign_to_me u queryset)
  | Review u => fst (mark_under_review u queryset)
  end.

(** The actions of a list, the first one first. *)
Definition run_all (acts : list action) (queryset : list t) : list t :=
  fold_left (fun q act => run act q) acts queryset.

End ApplicationAdmin.

(** ** Early settlement: [class EarlyRepayment] *)

Module Dec.

(** A finite [Decimal]: [coefficient / 10 ^ places].  Sums and products
    are exact while the coefficient has at most 28 digits, the precision
    of the default context; the money columns have at most 12. *)
Record t : Type := mk {
  coefficient : Z;
  places : nat
}.

Definition of_hundredths (z : Z) : t := mk z 2.

Definition rescale (d : t) (p : nat) : Z :=
  coefficient d * 10 ^ Z.of_nat (p - places d).

Definition add (a b : t) : t :=
  let p := Nat.max (places a) (places b) in
  mk (rescale a p + rescale b p) p.

Definition sub (a b : t) : t :=
  let p := Nat.max (places a) (places b) in
  mk (rescale a p - rescale b p) p.

Definition mul (a b : t) : t :=
  mk (coefficient a * coefficient b) (places a + places b).

Definition to_Q (d : t) : Q :=
  (inject_Z (coefficient d) / inject_Z (10 ^ Z.of_nat (places d)))%Q.

End Dec.

Module EarlyRepayment.

(** The columns written by [calculate_settlement_amount], as the object
    holds them in memory after the call. *)
Record t : Type := mk {
  outstanding_principal : Dec.t;
  outstanding_interest : Dec.t;
  penalty_amount : Dec.t;
  early_settlement_discount : Dec.t;
  total_settlement_amount : Dec.t;
  status : string
}.

(** [calculate_settlement_amount]; [loan] is [self.loan]. *)
Definition calculate_settlement_amount (loan : Loan.t) (self : t) : t :=
  let outstanding_principal := Dec.of_hundredths (Loan.outstanding_balance loan) in
  let outstanding_interest := Dec.of_hundredths (Loan.outstanding_interest loan) in
  let penalty_amount := Dec.of_hundredths (Loan.penalty_balance loan) in
  (* Apply early settlement discount (e.g., 10% of remaining interest) *)
  let early_settlement_discount := Dec.mul outstanding_interest (Dec.mk 10 2) in
  let total_settlement_amount :=
    Dec.add
      (Dec.sub (Dec.add outstanding_principal outstanding_interest)
         early_settlement_discount)
      penalty_amount in
  mk outstanding_principal outstanding_interest penalty_amount
     early_settlement_discount total_settlement_amount "calculated".

End EarlyRepayment.

(** The installment of the worked example as a payment of 300.00 left it:
    950.00 of principal owed, the penalty of 50.00 paid. *)
Definition installment_950 : RS.t :=
  RS.mk 1 7 1 100
    100000 20000 120000
    5000 20000 5000 30000
    95000 0 5000 95000
    "partial" None 20.

(** * Properties *)


(** ** Installment rows on [save] *)

Section ScheduleSave.
Variable today : Z.

Lemma recompute_keeps_payments (s : RS.t) :
  RS.total_paid (RS.recompute_outstanding s) = RS.total_paid s
  /\ RS.total_amount (RS.recompute_outstanding s) = RS.total_amount s
  /\ RS.penalty_outstanding (RS.recompute_outstanding s) = RS.penalty_outstanding s
  /\ RS.due_date (RS.recompute_outstanding s) = RS.due_date s.
Proof. destruct s; cbn; auto. Qed.

Lemma update_status_keeps_amounts (s : RS.t) :
  let s' := RS.update_status today s in
  RS.principal_amount s' = RS.principal_amount s
  /\ RS.interest_amount s' = RS.interest_amount s
  /\ RS.principal_paid s' = RS.principal_paid s
  /\ RS.interest_paid s' = RS.interest_paid s
  /\ RS.penalty_paid s' = RS.penalty_paid s
  /\ RS.total_paid s' = RS.total_paid s
  /\ RS.principal_outstanding s' = RS.principal_outstanding s
  /\ RS.interest_outstanding s' = RS.interest_outstanding s
  /\ RS.penalty_outstanding s' = RS.penalty_outstanding s
  /\ RS.total_outstanding s' = RS.total_outstanding s
  /\ RS.id s' = RS.id s.
Proof.
  unfold RS.update_status.
  destruct (_ <=? _); [|destruct (0 <? _); [|destruct (_ <? _)]];
    cbn; repeat split; reflexivity.
Qed.

(** C6.  The status written by [save] is the one the specification
    derives from the fields: [paid] when [total_paid >= total_amount +
    penalty_outstanding], else [partial] when [total_paid > 0], else
    [overdue] when [due_date < today], else [pending]. *)
Theorem save_status_derivation (s : RS.t) :
  RS.status (RS.save today s) = RS.spec_status today s
  /\ (RS.total_amount s + RS.penalty_outstanding s <= RS.total_paid s ->
      RS.status (RS.save today s) = "paid")
  /\ (RS.total_paid s < RS.total_amount s + RS.penalty_outstanding s ->
      0 < RS.total_paid s ->
      RS.status (RS.save today s) = "partial")
  /\ (RS.total_paid s < RS.total_amount s + RS.penalty_outstanding s ->
      RS.total_paid s <= 0 -> RS.due_date s < today ->
      RS.status (RS.save today s) = "overdue")
  /\ (RS.total_paid s < RS.total_amount s + RS.penalty_outstanding s ->
      RS.total_paid s <= 0 -> today <= RS.due_date s ->
      RS.status (RS.save today s) = "pending").
Proof.
  unfold RS.save, RS.update_status, RS.spec_status.
  destruct (recompute_keeps_payments s) as (-> & -> & -> & ->).
  rewrite Z.geb_leb, Z.gtb_ltb.
  destruct (Z.leb_spec (RS.total_amount s + RS.penalty_outstanding s)
              (RS.total_paid s));
    destruct (Z.ltb_spec 0 (RS.total_paid s));
    destruct (Z.ltb_spec (RS.due_date s) today);
    cbn; repeat split; intros; try reflexivity; lia.
Qed.

(** C7, as the code has it.  After [save] the principal and the interest
    outstanding are the amount less the paid part; the column
    [penalty_outstanding] is left as it was, and [penalty_paid] is
    subtracted from it only inside [total_outstanding]. *)
Theorem save_outstanding_components (s : RS.t) :
  let s' := RS.save today s in
  RS.principal_outstanding s' = RS.principal_amount s' - RS.principal_paid s'
  /\ RS.interest_outstanding s' = RS.interest_amount s' - RS.interest_paid s'
  /\ RS.penalty_outstanding s' = RS.penalty_outstanding s
  /\ RS.total_outstanding s'
     = RS.principal_outstanding s' + RS.interest_outstanding s'
       + (RS.penalty_outstanding s' - RS.penalty_paid s').
Proof.
  unfold RS.save.
  destruct (update_status_keeps_amounts (RS.recompute_outstanding s))
    as (-> & -> & -> & -> & -> & _ & -> & -> & -> & -> & _).
  destruct s; cbn; repeat split; lia.
Qed.

End ScheduleSave.

Lemma save_status_derivation_witness :
  RS.status (RS.save 120 installment_1250) = "overdue".
Proof.
  apply (proj1 (proj2 (proj2 (proj2 (save_status_derivation 120 installment_1250)))));
    cbn; lia.
Defined.

(** C7, counterexample.  The installment of the worked example is saved,
    a payment of 300.00 pays its penalty of 50.00 and the row is saved
    again: [penalty_outstanding] is 50.00 on both saved rows, so no penalty
    due satisfies [penalty_outstanding = penalty due - penalty_paid] on
    both. *)
Lemma penalty_outstanding_ignores_penalty_paid :
  RS.save 120 installment_1250 = installment_1250
  /\ option_map RS.penalty_paid (pay_installment 120 30000 installment_1250)
     = Some 5000
  /\ option_map RS.penalty_outstanding (pay_installment 120 30000 installment_1250)
     = Some 5000
  /\ ~ (exists penalty_due,
          penalty_due_minus_paid penalty_due (RS.save 120 installment_1250)
          /\ match pay_installment 120 30000 installment_1250 with
             | Some s' => penalty_due_minus_paid penalty_due s'
             | None => True
             end).
Proof.
  repeat split; try reflexivity.
  intros (d & H0 & H1). unfold penalty_due_minus_paid in H0, H1.
  destruct (pay_installment 120 30000 installment_1250) as [s'|] eqn:E;
    vm_compute in E; inversion E; subst s'.
  cbn in H0, H1. lia.
Qed.

(** A consequence: the next payment meets the same [penalty_outstanding]
    of 50.00 and pays it a second time; the row ends with 1300.00 paid
    against 1250.00 due and a [total_outstanding] of -50.00. *)
Lemma penalty_paid_again_on_next_payment :
  match pay_installment 120 30000 installment_1250 with
  | Some s1 =>
      RS.total_outstanding s1 = 95000
      /\ option_map
           (fun s2 => (RS.penalty_paid s2, RS.total_paid s2,
                       RS.total_outstanding s2, RS.status s2))
           (pay_installment 120 200000 s1)
         = Some (10000, 130000, -5000, "paid")
  | None => False
  end.
Proof. vm_compute. split; reflexivity. Qed.

(** ** One installment: the waterfall *)

Section Waterfall.
Variables today : Z.

Lemma allocate_step_Some (remaining : Z) (s : RS.t) (a : RT.allocation) :
  RT.allocate_step today remaining s = Some a ->
  0 < Z.min remaining (RT.schedule_outstanding s)
  /\ a = RT.waterfall today (Z.min remaining (RT.schedule_outstanding s)) s.
Proof.
  unfold RT.allocate_step.
  destruct (Z.ltb_spec 0 (Z.min remaining (RT.schedule_outstanding s)));
    intros E; inversion E; auto.
Qed.

Lemma waterfall_saved_paid (p : Z) (s : RS.t) :
  let a := RT.waterfall today p s in
  RS.penalty_paid (RT.saved a) = RS.penalty_paid s + RT.penalty_payment a
  /\ RS.interest_paid (RT.saved a) = RS.interest_paid s + RT.interest_payment a
  /\ RS.principal_paid (RT.saved a) = RS.principal_paid s + RT.principal_payment a
  /\ RS.total_paid (RT.saved a) = RS.total_paid s + RT.allocated a
  /\ RS.id (RT.saved a) = RS.id s
  /\ RT.schedule a = s.
Proof.
  unfold RT.waterfall, RT.allocated, RS.save; cbn.
  repeat match goal with
  | |- context [RS.update_status today ?x] =>
      destruct (update_status_keeps_amounts today x)
        as (_ & _ & -> & -> & -> & -> & _ & _ & _ & _ & ->)
  end.
  destruct s; cbn; repeat split; reflexivity.
Qed.


(** The three parts never add up to more than the payment they split. *)
Lemma waterfall_allocated_le (p : Z) (s : RS.t) :
  RT.allocated (RT.waterfall today p s) <= p.
Proof. unfold RT.allocated, RT.waterfall; cbn. lia. Qed.

Lemma allocate_step_allocated_le (remaining : Z) (s : RS.t) (a : RT.allocation) :
  RT.allocate_step today remaining s = Some a ->
  RT.allocated a <= remaining
  /\ RT.allocated a <= RT.schedule_outstanding s
  /\ RT.schedule a = s.
Proof.
  intros E. apply allocate_step_Some in E. destruct E as [Hp ->].
  pose proof (waterfall_allocated_le (Z.min remaining (RT.schedule_outstanding s)) s).
  repeat split; try lia.
Qed.

End Waterfall.


(** ** The queryset: selection and order *)

Lemma insert_by_due_date_perm (s : RS.t) (l : list RS.t) :
  Permutation (RT.insert_by_due_date s l) (s :: l).
Proof.
  induction l as [|x l IH]; cbn; [reflexivity|].
  destruct (RS.due_date s <=? RS.due_date x); [reflexivity|].
  rewrite IH. apply perm_swap.
Qed.

Lemma order_by_due_date_perm (l : list RS.t) :
  Permutation (RT.order_by_due_date l) l.
Proof.
  induction l as [|x l IH]; cbn; [constructor|].
  rewrite insert_by_due_date_perm. now constructor.
Qed.

Lemma insert_by_due_date_sorted (s : RS.t) (l : list RS.t) :
  Sorted due_le l -> Sorted due_le (RT.insert_by_due_date s l).
Proof.
  induction 1 as [|x l Hl IH Hx]; cbn.
  - repeat constructor.
  - destruct (Z.leb_spec (RS.due_date s) (RS.due_date x)) as [Hsx|Hsx].
    + constructor; [now constructor|]. constructor. exact Hsx.
    + assert (Hxs : due_le x s) by (unfold due_le; lia).
      constructor; [exact IH|].
      destruct Hx as [|y l' Hxy]; cbn.
      * constructor. exact Hxs.
      * destruct (RS.due_date s <=? RS.due_date y); constructor; assumption.
Qed.

Lemma order_by_due_date_sorted (l : list RS.t) :
  Sorted due_le (RT.order_by_due_date l).
Proof.
  induction l; cbn; [constructor|]. now apply insert_by_due_date_sorted.
Qed.

Lemma status_in_three (s : RS.t) :
  RT.status_in ["pending"; "partial"; "overdue"] s = true
  <-> RS.status s = "pending" \/ RS.status s = "partial" \/ RS.status s = "overdue".
Proof.
  unfold RT.status_in; cbn. rewrite !orb_true_iff, !String.eqb_eq.
  intuition discriminate.
Qed.

Lemma schedules_In (loan_id : Z) (table : list RS.t) (s : RS.t) :
  In s (RT.schedules loan_id table)
  <-> In s table /\ RS.loan s = loan_id
      /\ (RS.status s = "pending" \/ RS.status s = "partial"
          \/ RS.status s = "overdue").
Proof.
  unfold RT.schedules. split.
  - intros Hin. apply (Permutation_in _ (order_by_due_date_perm _)) in Hin.
    apply filter_In in Hin. destruct Hin as [Ht Hb].
    apply andb_true_iff in Hb. destruct Hb as [Hl Hs].
    apply Z.eqb_eq in Hl. apply status_in_three in Hs. auto.
  - intros (Ht & Hl & Hs).
    apply (Permutation_in _ (Permutation_sym (order_by_due_date_perm _))).
    apply filter_In. split; [assumption|].
    apply andb_true_iff. split; [now apply Z.eqb_eq | now apply status_in_three].
Qed.

(** ** The loop *)

Section Loop.
Variable today : Z.

Lemma allocate_loop_break (r : Z) (l : list RS.t) :
  r <= 0 -> RT.allocate_loop today r l = ([], r).
Proof.
  intros Hr. destruct l; cbn; [reflexivity|].
  destruct (Z.leb_spec r 0); [reflexivity | lia].
Qed.



Lemma allocate_loop_In (r : Z) (l : list RS.t) (a : RT.allocation) :
  In a (fst (RT.allocate_loop today r l)) ->
  In (RT.schedule a) l
  /\ exists r', 0 < r' /\ RT.allocate_step today r' (RT.schedule a) = Some a.
Proof.
  revert r. induction l as [|s l IH]; intros r; cbn; [tauto|].
  destruct (Z.leb_spec r 0) as [Hr|Hr]; [cbn; tauto|].
  destruct (RT.allocate_step today r s) as [a'|] eqn:E.
  - destruct (RT.allocate_loop today (r - RT.allocated a') l) as [d r1] eqn:El.
    cbn. intros [Heq|Hin].
    + subst a'.
      destruct (allocate_step_allocated_le today r s a E) as (_ & _ & Hs).
      rewrite Hs. split; [now left|]. exists r. split; assumption.
    + specialize (IH (r - RT.allocated a')). rewrite El in IH.
      destruct (IH Hin) as [H1 H2]. split; [now right | exact H2].
  - intros Hin. destruct (IH r Hin) as [H1 H2]. split; [now right | exact H2].
Qed.

End Loop.

(** What the loop does keep: every allocation a payment makes is to a
    row of the table as it stood before the payment, and its three parts
    together are at most [payment_for_schedule], so at most the row's
    [total_outstanding + penalty_outstanding]; the row's [total_paid]
    grows by exactly that sum. *)
Lemma allocated_at_most_outstanding
    (today : Z) (self : RT.t) (table : list RS.t) (a : RT.allocation) :
  In a (RT.allocations today self table) ->
  In (RT.schedule a) table
  /\ RT.penalty_payment a + RT.interest_payment a + RT.principal_payment a
     <= RS.total_outstanding (RT.schedule a) + RS.penalty_outstanding (RT.schedule a)
  /\ RS.total_paid (RT.saved a)
     = RS.total_paid (RT.schedule a)
       + (RT.penalty_payment a + RT.interest_payment a + RT.principal_payment a).
Proof.
  unfold RT.allocations. intros Hin.
  apply allocate_loop_In in Hin. destruct Hin as [Hs (r' & Hr' & E)].
  apply schedules_In in Hs. destruct Hs as [Ht _].
  split; [exact Ht|].
  destruct (allocate_step_allocated_le today r' _ a E) as (_ & Hle & _).
  apply allocate_step_Some in E. destruct E as [_ E].
  split; [exact Hle|].
  rewrite E at 1.
  destruct (waterfall_saved_paid today
              (Z.min r' (RT.schedule_outstanding (RT.schedule a))) (RT.schedule a))
    as (_ & _ & _ & -> & _).
  rewrite <- E. reflexivity.
Qed.

Lemma allocated_at_most_outstanding_witness :
  let a := RT.waterfall 120 128000 installment_1250 in
  In a (RT.allocations 120 (payment 7 128000)
          [installment_500 2 2 130; installment_1250])
  /\ In (RT.schedule a) [installment_500 2 2 130; installment_1250]
  /\ RT.allocated a <= 130000.
Proof.
  assert (H : In (RT.waterfall 120 128000 installment_1250)
                (RT.allocations 120 (payment 7 128000)
                   [installment_500 2 2 130; installment_1250]))
    by (left; reflexivity).
  split; [exact H|].
  split;
    [exact (proj1 (allocated_at_most_outstanding 120 _ _ _ H))
    |exact (proj1 (proj2 (allocated_at_most_outstanding 120 _ _ _ H)))].
Defined.

(** ** Order of allocation over the installments *)






(** ** The loan ledger *)

Lemma write_back_nil (table : list RS.t) : RT.write_back [] table = table.
Proof. unfold RT.write_back; cbn. apply map_id. Qed.

Lemma save_completed (today : Z) (self : RT.t) (db : Loan.t * list RS.t) :
  RT.status self = "completed" ->
  RT.save today self db
  = (RT.update_ledger self (fst db), RT.allocate_to_schedules today self (snd db)).
Proof. unfold RT.save. intros ->. reflexivity. Qed.

(** C3, as the code has it.  Saving a completed payment adds its amount
    to [total_paid] and takes the payment's own [principal_amount],
    [interest_amount] and [penalty_amount] columns off the three balances,
    each clamped at zero; the installment table plays no part in the new
    ledger. *)
Theorem ledger_update_from_transaction
    (today : Z) (self : RT.t) (db : Loan.t * list RS.t) :
  RT.status self = "completed" ->
  let loan := fst db in
  let loan' := fst (RT.save today self db) in
  Loan.total_paid loan' = Loan.total_paid loan + RT.amount self
  /\ Loan.outstanding_balance loan'
     = Z.max (Loan.outstanding_balance loan - RT.principal_amount self) 0
  /\ Loan.outstanding_interest loan'
     = Z.max (Loan.outstanding_interest loan - RT.interest_amount self) 0
  /\ Loan.penalty_balance loan'
     = Z.max (Loan.penalty_balance loan - RT.penalty_amount self) 0
  /\ (0 <= Loan.outstanding_balance loan'
      /\ 0 <= Loan.outstanding_interest loan'
      /\ 0 <= Loan.penalty_balance loan')
  /\ (forall table, fst (RT.save today self (loan, table)) = loan').
Proof.
  intros Hc loan loan'. subst loan'.
  rewrite (save_completed today self db Hc). cbn [fst].
  unfold RT.update_ledger, Loan.save; cbn.
  repeat split; try lia.
  intros table. now rewrite (save_completed today self _ Hc).
Qed.

Lemma ledger_update_from_transaction_witness :
  let loan' := fst (RT.save 120 (payment 7 30000) (loan_1250, [installment_1250])) in
  Loan.total_paid loan' = 30000
  /\ Loan.outstanding_balance loan' = 100000
  /\ Loan.outstanding_interest loan' = 20000
  /\ Loan.penalty_balance loan' = 5000.
Proof.
  destruct (ledger_update_from_transaction 120 (payment 7 30000)
              (loan_1250, [installment_1250]) eq_refl)
    as (H1 & H2 & H3 & H4 & _).
  exact (conj H1 (conj H2 (conj H3 H4))).
Defined.

(** C3, counterexample.  A payment of 300.00 against the worked
    installment allocates 50.00 of principal, 200.00 of interest and 50.00
    of penalty, and leaves the three balances of the loan as they were. *)
Lemma ledger_ignores_allocations :
  map (fun a => (RT.penalty_payment a, RT.interest_payment a, RT.principal_payment a))
    (RT.allocations 120 (payment 7 30000) [installment_1250])
  = [(5000, 20000, 5000)]
  /\ fst (RT.save 120 (payment 7 30000) (loan_1250, [installment_1250]))
     = Loan.mk 7 100000 20000 "active" 100000 20000 30000 5000
  /\ ~ ledger_reflects_allocations 120 (payment 7 30000)
         (loan_1250, [installment_1250]).
Proof.
  repeat split; try reflexivity.
  intros (H & _). vm_compute in H. discriminate.
Qed.

(** C4, as the code has it.  Processing a payment leaves a loan completed
    exactly when it already was completed or its combined outstanding
    after the update is at most 1.00; the admin action completes every
    active loan it is given and changes no balance. *)
Theorem completed_by_payment_or_admin
    (self : RT.t) (loan : Loan.t) (queryset : list Loan.t) :
  (Loan.status (RT.update_ledger self loan) = "completed"
   <-> Loan.status loan = "completed"
       \/ Loan.combined_outstanding (RT.update_ledger self loan) <= 100)
  /\ (forall l, In l queryset -> Loan.status l = "active" ->
        In (Loan.set_status "completed" l) (fst (LoanAdmin.mark_as_completed queryset)))
  /\ map Loan.combined_outstanding (fst (LoanAdmin.mark_as_completed queryset))
     = map Loan.combined_outstanding queryset.
Proof.
  split; [|split].
  - unfold RT.update_ledger, Loan.save, Loan.combined_outstanding; cbn.
    destruct (Z.leb_spec
                (Z.max (Loan.outstanding_balance loan - RT.principal_amount self) 0
                 + Z.max (Loan.outstanding_interest loan - RT.interest_amount self) 0
                 + Z.max (Loan.penalty_balance loan - RT.penalty_amount self) 0) 100).
    + split; auto.
    + split; [auto|]. intros [E|E]; [exact E | lia].
  - intros l Hin Hact. unfold LoanAdmin.mark_as_completed; cbn [fst].
    apply in_map_iff. exists l. rewrite Hact. split; [reflexivity | assumption].
  - unfold LoanAdmin.mark_as_completed; cbn [fst].
    rewrite map_map. apply map_ext. intros l.
    now destruct (Loan.status l =? "active")%string.
Qed.

Lemma completed_by_payment_or_admin_witness :
  In (Loan.set_status "completed" loan_5600)
    (fst (LoanAdmin.mark_as_completed [loan_1200; loan_5600])).
Proof.
  apply (proj1 (proj2 (completed_by_payment_or_admin
                         (payment 7 0) loan_1200 [loan_1200; loan_5600]))).
  - right; left; reflexivity.
  - reflexivity.
Defined.

(** C4, counterexample.  The admin action completes an active loan that
    still has 5600.00 outstanding. *)
Lemma completed_with_outstanding :
  LoanAdmin.mark_as_completed [loan_5600]
  = ([Loan.mk 8 500000 60000 "completed" 500000 60000 0 0], 1)
  /\ Loan.combined_outstanding (Loan.set_status "completed" loan_5600) = 560000
  /\ ~ completed_iff_settled (hd loan_5600 (fst (LoanAdmin.mark_as_completed [loan_5600]))).
Proof.
  repeat split.
  intros [H _].
  assert (H' : 560000 <= 100) by (apply H; reflexivity). lia.
Qed.

(** ** Payments that are not positive *)

(** C9, as the code has it.  The validator of [amount] refuses exactly the
    negative amounts.  Saving a payment whose amount is zero or negative
    allocates nothing and leaves every installment row as it was; when the
    payment is completed the ledger is still updated from it. *)
Theorem non_positive_amount_allocates_nothing
    (today : Z) (self : RT.t) (db : Loan.t * list RS.t) :
  RT.amount self <= 0 ->
  (RT.validate_amount (RT.amount self) = inl RT.min_value <-> RT.amount self < 0)
  /\ RT.allocations today self (snd db) = []
  /\ snd (RT.save today self db) = snd db
  /\ (RT.status self = "completed" ->
      fst (RT.save today self db) = RT.update_ledger self (fst db)).
Proof.
  intros Hle.
  assert (Ha : RT.allocations today self (snd db) = []).
  { unfold RT.allocations. now rewrite allocate_loop_break. }
  split; [|split; [exact Ha|split]].
  - unfold RT.validate_amount.
    destruct (Z.ltb_spec (RT.amount self) 0); split; intros; try lia;
      try discriminate; reflexivity.
  - unfold RT.save, RT.update_loan_balances, RT.allocate_to_schedules.
    destruct (RT.status self =? "completed")%string; [|reflexivity].
    cbn [snd]. rewrite Ha. apply write_back_nil.
  - intros Hc. now rewrite (save_completed today self db Hc).
Qed.

Lemma non_positive_amount_allocates_nothing_witness :
  RT.allocations 15 (payment 7 0) [january; february] = []
  /\ snd (RT.save 15 (payment 7 0) (loan_1200, [january; february]))
     = [january; february].
Proof.
  destruct (non_positive_amount_allocates_nothing 15 (payment 7 0)
              (loan_1200, [january; february])) as (_ & H1 & H2 & _).
  - cbn; lia.
  - exact (conj H1 H2).
Defined.

(** C9, counterexample.  An amount of 0.00 passes the validator, and the
    completed payment of 0.00 that declares 100.00 of principal lowers the
    outstanding balance of the loan; saved without validation, a payment of
    -100.00 lowers [total_paid]. *)
Lemma zero_amount_accepted_and_ledger_updated :
  RT.amount zero_payment <= 0
  /\ RT.validate_amount (RT.amount zero_payment) = inr 0
  /\ fst (RT.save 15 zero_payment (loan_1200, [january; february]))
     = Loan.mk 7 100000 20000 "active" 90000 20000 0 0
  /\ Loan.total_paid
       (fst (RT.save 15 (payment 7 (-10000)) (loan_1200, [january; february])))
     = -10000
  /\ ~ rejected_untouched 15 zero_payment (loan_1200, [january; february]).
Proof.
  repeat split; try reflexivity; try (cbn; lia).
  intros [[e He] _]. discriminate He.
Qed.

(** ** Overpayment *)

(** C10.  Saving a completed payment raises [total_paid] of the loan by
    the whole amount.  A payment of 1500.00 on a loan of 1000.00 with
    200.00 interest exceeds the 1200.00 outstanding, puts [total_paid]
    above principal plus interest and the completion percentage at 125. *)
Theorem total_paid_grows_by_amount
    (today : Z) (self : RT.t) (db : Loan.t * list RS.t) :
  RT.status self = "completed" ->
  Loan.total_paid (fst (RT.save today self db))
  = Loan.total_paid (fst db) + RT.amount self
  /\ (let loan' := fst (RT.save today (payment 7 150000)
                          (loan_1200, [january; february])) in
      Loan.combined_outstanding loan_1200 < RT.amount (payment 7 150000)
      /\ Loan.total_paid loan' = Loan.total_paid loan_1200 + 150000
      /\ Loan.principal_amount loan' + Loan.total_interest loan'
         < Loan.total_paid loan'
      /\ (100 < Loan.completion_percentage loan')%Q
      /\ (Loan.completion_percentage loan' == 125)%Q).
Proof.
  intros Hc. split.
  - rewrite (save_completed today self db Hc). reflexivity.
  - cbn. repeat split; reflexivity.
Qed.

Lemma total_paid_grows_by_amount_witness :
  Loan.total_paid (fst (RT.save 15 (payment 7 150000)
                          (loan_1200, [january; february])))
  = 0 + 150000.
Proof.
  exact (proj1 (total_paid_grows_by_amount 15 (payment 7 150000)
                  (loan_1200, [january; february]) eq_refl)).
Defined.

(** ** Interest of a loan application *)

Section CalculatedInterest.
Import Py.
Context {decimal : Type} `{DecimalOps decimal}.

Lemma calculated_interest_reducing (self : LoanApplication.t decimal) :
  LoanApplication.interest_calculation_method (LoanApplication.loan_type self)
  = "reducing" ->
  LoanApplication.calculated_interest self
  = ret (Decimal
           (dec_mul
              (dec_mul (LoanApplication.base_amount self)
                 (dec_div
                    (dec_div
                       (LoanApplication.interest_rate (LoanApplication.loan_type self))
                       (of_int 100))
                    (of_int 12)))
              (of_int (LoanApplication.term_months self)))).
Proof.
  intros Hm. unfold LoanApplication.calculated_interest, LoanApplication.base_amount,
    LoanApplication.truthy.
  rewrite Hm. cbn.
  destruct (LoanApplication.approved_amount self) as [a|]; [|reflexivity].
  now destruct (is_zero a).
Qed.

(** C8, the failure.  For every method other than [reducing], so for
    [flat] and for [compound], [calculated_interest] returns no value: the
    quotient [term_months / 12] of two integers is a float, and the
    product, or the power, of a [Decimal] and a float raises [TypeError]. *)
Theorem calculated_interest_raises_TypeError (self : LoanApplication.t decimal) :
  LoanApplication.interest_calculation_method (LoanApplication.loan_type self)
  <> "reducing" ->
  LoanApplication.calculated_interest self = raise TypeError.
Proof.
  intros Hm. unfold LoanApplication.calculated_interest.
  destruct (String.eqb_spec
              (LoanApplication.interest_calculation_method
                 (LoanApplication.loan_type self)) "flat") as [E|E];
    [reflexivity|].
  destruct (String.eqb_spec
              (LoanApplication.interest_calculation_method
                 (LoanApplication.loan_type self)) "reducing") as [E'|E'];
    [contradiction|reflexivity].
Qed.

End CalculatedInterest.

Lemma calculated_interest_raises_TypeError_witness :
  LoanApplication.calculated_interest (application "flat") = Py.raise Py.TypeError
  /\ LoanApplication.calculated_interest (application "compound")
     = Py.raise Py.TypeError.
Proof.
  split; apply calculated_interest_raises_TypeError; cbn; discriminate.
Defined.

Lemma calculated_interest_reducing_example :
  exists q,
    LoanApplication.calculated_interest (application "reducing")
    = Py.ret (Py.Decimal q)
    /\ (q == 120)%Q.
Proof. eexists. split; reflexivity. Qed.

(** * Further properties of the allocation *)

Section LoopAccounting.
Variable today : Z.

Lemma allocate_loop_remaining (r : Z) (l : list RS.t) :
  snd (RT.allocate_loop today r l)
  = r - sum_of RT.allocated (fst (RT.allocate_loop today r l)).
Proof.
  revert r. induction l as [|s l IH]; intros r; cbn; [lia|].
  destruct (Z.leb_spec r 0); [cbn; lia|].
  destruct (RT.allocate_step today r s) as [a|]; [|apply IH].
  specialize (IH (r - RT.allocated a)).
  destruct (RT.allocate_loop today (r - RT.allocated a) l) as [d r1].
  cbn in *. lia.
Qed.

Lemma allocate_loop_remaining_nonneg (r : Z) (l : list RS.t) :
  0 <= r -> 0 <= snd (RT.allocate_loop today r l).
Proof.
  revert r. induction l as [|s l IH]; intros r Hr; cbn; [assumption|].
  destruct (Z.leb_spec r 0); [assumption|].
  destruct (RT.allocate_step today r s) as [a|] eqn:E; [|now apply IH].
  destruct (allocate_step_allocated_le today r s a E) as (Hle & _).
  specialize (IH (r - RT.allocated a)).
  destruct (RT.allocate_loop today (r - RT.allocated a) l) as [d r1].
  cbn in *. apply IH. lia.
Qed.

Lemma allocate_loop_saved_id (r : Z) (l : list RS.t) (a : RT.allocation) :
  In a (fst (RT.allocate_loop today r l)) ->
  RS.id (RT.saved a) = RS.id (RT.schedule a).
Proof.
  intros Hin. apply allocate_loop_In in Hin.
  destruct Hin as (_ & r' & _ & E).
  apply allocate_step_Some in E. destruct E as [_ E].
  rewrite E at 1.
  destruct (waterfall_saved_paid today
              (Z.min r' (RT.schedule_outstanding (RT.schedule a))) (RT.schedule a))
    as (_ & _ & _ & _ & -> & _).
  reflexivity.
Qed.

End LoopAccounting.

(** X1.  The allocations of a payment and what is left of it add up to
    the amount; of a non-negative amount nothing negative is left, so the
    installments never receive more than was paid. *)
Theorem payment_is_conserved (today : Z) (self : RT.t) (table : list RS.t) :
  0 <= RT.amount self ->
  let left :=
    snd (RT.allocate_loop today (RT.amount self)
           (RT.schedules (RT.loan self) table)) in
  RT.amount self = sum_of RT.allocated (RT.allocations today self table) + left
  /\ 0 <= left
  /\ sum_of RT.allocated (RT.allocations today self table) <= RT.amount self.
Proof.
  intros Hr left. subst left. unfold RT.allocations.
  pose proof (allocate_loop_remaining today (RT.amount self)
                (RT.schedules (RT.loan self) table)) as H1.
  pose proof (allocate_loop_remaining_nonneg today (RT.amount self)
                (RT.schedules (RT.loan self) table) Hr) as H2.
  lia.
Qed.

Lemma payment_is_conserved_witness :
  sum_of RT.allocated
    (RT.allocations 15 (payment 7 150000) [february; january]) <= 150000.
Proof.
  refine (proj2 (proj2 (payment_is_conserved 15 (payment 7 150000)
                          [february; january] _))).
  cbn; lia.
Defined.

(** ** Rows the allocator leaves alone *)

Lemma write_back_ids (done : list RT.allocation) (table : list RS.t) :
  map RS.id (RT.write_back done table) = map RS.id table.
Proof.
  unfold RT.write_back. rewrite map_map. apply map_ext. intros row.
  destruct (find (fun a => RS.id (RT.saved a) =? RS.id row) done) as [a|] eqn:E;
    [|reflexivity].
  apply find_some in E. destruct E as [_ E]. now apply Z.eqb_eq in E.
Qed.

Lemma NoDup_map_id_eq (table : list RS.t) (x y : RS.t) :
  NoDup (map RS.id table) -> In x table -> In y table ->
  RS.id x = RS.id y -> x = y.
Proof.
  induction table as [|z table IH]; cbn; [tauto|].
  intros Hnd Hx Hy Hid. inversion Hnd as [|? ? Hnot Hnd']; subst.
  destruct Hx as [->|Hx], Hy as [->|Hy]; auto.
  - elim Hnot. rewrite Hid. now apply in_map.
  - elim Hnot. rewrite <- Hid. now apply in_map.
Qed.

(** X2.  Where the primary keys of the table are distinct, allocating a
    payment keeps the number of rows and their keys, and leaves every row
    of another loan, and every row whose status is not pending, partial or
    overdue (a paid or waived one), exactly as it was. *)
Theorem allocation_leaves_other_rows
    (today : Z) (self : RT.t) (table : list RS.t) :
  NoDup (map RS.id table) ->
  map RS.id (RT.allocate_to_schedules today self table) = map RS.id table
  /\ List.length (RT.allocate_to_schedules today self table) = List.length table
  /\ (forall i row,
        nth_error table i = Some row ->
        not_selected (RT.loan self) row ->
        nth_error (RT.allocate_to_schedules today self table) i = Some row).
Proof.
  intros Hnd. unfold RT.allocate_to_schedules.
  split; [apply write_back_ids|].
  split; [unfold RT.write_back; apply length_map|].
  intros i row Hi Hns. unfold RT.write_back.
  rewrite nth_error_map, Hi. cbn. f_equal.
  destruct (find (fun a => RS.id (RT.saved a) =? RS.id row)
              (RT.allocations today self table)) as [a|] eqn:E; [|reflexivity].
  exfalso. apply find_some in E. destruct E as [Hin E].
  apply Z.eqb_eq in E. unfold RT.allocations in Hin.
  pose proof (allocate_loop_saved_id today _ _ a Hin) as Hid.
  apply allocate_loop_In in Hin. destruct Hin as [Hsel _].
  apply schedules_In in Hsel. destruct Hsel as (Ht & Hl & Hs).
  assert (Heq : RT.schedule a = row).
  { apply (NoDup_map_id_eq table); auto.
    - eapply nth_error_In; eassumption.
    - congruence. }
  subst row. destruct Hns as [Hns|(H1 & H2 & H3)]; [contradiction|].
  destruct Hs as [Hs|[Hs|Hs]]; contradiction.
Qed.

Lemma allocation_leaves_other_rows_witness :
  nth_error
    (RT.allocate_to_schedules 15 (payment 7 60000)
       [february; paid_row; january; other_loan_row]) 1 = Some paid_row
  /\ nth_error
       (RT.allocate_to_schedules 15 (payment 7 60000)
          [february; paid_row; january; other_loan_row]) 3 = Some other_loan_row.
Proof.
  assert (Hnd : NoDup (map RS.id [february; paid_row; january; other_loan_row])).
  { cbn. repeat constructor; cbn; intuition discriminate. }
  destruct (allocation_leaves_other_rows 15 (payment 7 60000) _ Hnd)
    as (_ & _ & H).
  split.
  - apply H; [reflexivity|]. right. cbn. repeat split; discriminate.
  - apply H; [reflexivity|]. left. cbn. discriminate.
Defined.

(** ** What a saved allocation does to the outstanding columns *)

Lemma save_columns (today : Z) (s : RS.t) :
  let s' := RS.save today s in
  RS.principal_amount s' = RS.principal_amount s
  /\ RS.interest_amount s' = RS.interest_amount s
  /\ RS.total_amount s' = RS.total_amount s
  /\ RS.principal_paid s' = RS.principal_paid s
  /\ RS.interest_paid s' = RS.interest_paid s
  /\ RS.penalty_paid s' = RS.penalty_paid s
  /\ RS.total_paid s' = RS.total_paid s
  /\ RS.penalty_outstanding s' = RS.penalty_outstanding s
  /\ RS.principal_outstanding s' = RS.principal_amount s - RS.principal_paid s
  /\ RS.interest_outstanding s' = RS.interest_amount s - RS.interest_paid s
  /\ RS.total_outstanding s'
     = RS.principal_amount s - RS.principal_paid s
       + (RS.interest_amount s - RS.interest_paid s)
       + RS.penalty_outstanding s - RS.penalty_paid s.
Proof.
  unfold RS.save, RS.update_status.
  destruct (_ <=? _); [|destruct (0 <? _); [|destruct (_ <? _)]];
    destruct s; cbn; repeat split; reflexivity.
Qed.

Lemma save_saved_row (today : Z) (s : RS.t) : saved_row (RS.save today s).
Proof.
  destruct (save_columns today s)
    as (H1 & H2 & _ & H4 & H5 & H6 & _ & H8 & H9 & H10 & H11).
  unfold saved_row. repeat split; lia.
Qed.

(** X3.  When a payment is allocated to a row whose outstanding columns
    are the ones [save] computes and are not negative, the saved row has
    its [total_outstanding] lowered by exactly what was allocated, nothing
    negative is allocated, and principal and interest outstanding stay
    non-negative: principal and interest are never overpaid. *)
Theorem allocation_reduces_outstanding
    (today : Z) (self : RT.t) (table : list RS.t) (a : RT.allocation) :
  In a (RT.allocations today self table) ->
  saved_row (RT.schedule a) ->
  0 <= RS.penalty_outstanding (RT.schedule a) ->
  0 <= RS.interest_outstanding (RT.schedule a) ->
  0 <= RS.principal_outstanding (RT.schedule a) ->
  saved_row (RT.saved a)
  /\ RS.total_outstanding (RT.saved a)
     = RS.total_outstanding (RT.schedule a) - RT.allocated a
  /\ 0 <= RT.penalty_payment a /\ 0 <= RT.interest_payment a
  /\ 0 <= RT.principal_payment a
  /\ RS.principal_outstanding (RT.saved a)
     = RS.principal_outstanding (RT.schedule a) - RT.principal_payment a
  /\ RS.interest_outstanding (RT.saved a)
     = RS.interest_outstanding (RT.schedule a) - RT.interest_payment a
  /\ 0 <= RS.principal_outstanding (RT.saved a)
  /\ 0 <= RS.interest_outstanding (RT.saved a)
  /\ RS.total_outstanding (RT.saved a) <= RS.total_outstanding (RT.schedule a).
Proof.
  unfold RT.allocations. intros Hin (S1 & S2 & S3) Hpen Hio Hpo.
  apply allocate_loop_In in Hin. destruct Hin as (_ & r' & Hr' & E).
  apply allocate_step_Some in E. destruct E as [Hp E].
  set (s := RT.schedule a) in *.
  set (p := Z.min r' (RT.schedule_outstanding s)) in *.
  rewrite E. split; [apply save_saved_row|].
  unfold RT.allocated, RT.waterfall.
  cbn [RT.saved RT.penalty_payment RT.interest_payment RT.principal_payment].
  match goal with |- context [RS.save today ?x] =>
    destruct (save_columns today x)
      as (_ & _ & _ & _ & _ & _ & _ & _ & -> & -> & ->)
  end.
  cbn [RS.add_payments RS.principal_amount RS.interest_amount RS.principal_paid
       RS.interest_paid RS.penalty_paid RS.penalty_outstanding].
  repeat split; lia.
Qed.

Lemma allocation_reduces_outstanding_witness :
  let a := RT.waterfall 120 128000 installment_1250 in
  RS.total_outstanding (RT.saved a) = 125000 - RT.allocated a
  /\ 0 <= RS.principal_outstanding (RT.saved a).
Proof.
  assert (H : In (RT.waterfall 120 128000 installment_1250)
                (RT.allocations 120 (payment 7 128000) penalty_then_later))
    by (left; reflexivity).
  destruct (allocation_reduces_outstanding 120 _ _ _ H)
    as (_ & H1 & _ & _ & _ & _ & _ & H2 & _).
  - cbn. repeat split; reflexivity.
  - cbn; lia.
  - cbn; lia.
  - cbn; lia.
  - exact (conj H1 H2).
Defined.

(** ** A payment that covers everything *)

Lemma save_status_paid (today : Z) (s : RS.t) :
  RS.total_amount s + RS.penalty_outstanding s <= RS.total_paid s ->
  RS.status (RS.save today s) = "paid".
Proof.
  intros H. unfold RS.save, RS.update_status.
  destruct (recompute_keeps_payments s) as (-> & -> & -> & _).
  destruct (Z.leb_spec (RS.total_amount s + RS.penalty_outstanding s)
              (RS.total_paid s)); [reflexivity | lia].
Qed.

Lemma open_row_outstanding (s : RS.t) :
  open_row s ->
  RT.schedule_outstanding s
  = RS.principal_outstanding s + RS.interest_outstanding s
  /\ 0 < RT.schedule_outstanding s.
Proof.
  intros ((_ & _ & S3) & P1 & P2 & _ & _ & _ & _ & Hpos).
  unfold RT.schedule_outstanding. lia.
Qed.

Lemma total_schedule_outstanding_cons (s : RS.t) (l : list RS.t) :
  total_schedule_outstanding (s :: l)
  = RT.schedule_outstanding s + total_schedule_outstanding l.
Proof. reflexivity. Qed.

Lemma open_rows_total_nonneg (l : list RS.t) :
  Forall open_row l -> 0 <= total_schedule_outstanding l.
Proof.
  induction 1 as [|s l Hs _ IH]; [cbn; lia|].
  rewrite total_schedule_outstanding_cons.
  destruct (open_row_outstanding s Hs). lia.
Qed.

Lemma allocate_step_open_row (today r : Z) (s : RS.t) :
  open_row s -> RT.schedule_outstanding s <= r ->
  exists a,
    RT.allocate_step today r s = Some a
    /\ RT.schedule a = s
    /\ RT.allocated a = RT.schedule_outstanding s
    /\ RS.status (RT.saved a) = "paid"
    /\ RS.total_outstanding (RT.saved a) = 0.
Proof.
  intros Hs Hr. destruct (open_row_outstanding s Hs) as [Hso Hpos].
  destruct Hs as ((S1 & S2 & S3) & P1 & P2 & T1 & T2 & Hpo & Hio & _).
  unfold RT.allocate_step.
  replace (Z.min r (RT.schedule_outstanding s)) with (RT.schedule_outstanding s) by lia.
  destruct (Z.ltb_spec 0 (RT.schedule_outstanding s)); [|lia].
  eexists. split; [reflexivity|].
  split; [reflexivity|].
  split; [unfold RT.allocated, RT.waterfall; cbn; lia|].
  unfold RT.waterfall; cbn [RT.saved]. split.
  - apply save_status_paid. destruct s; cbn in *. lia.
  - match goal with |- context [RS.save today ?x] =>
      destruct (save_columns today x)
        as (_ & _ & _ & _ & _ & _ & _ & _ & _ & _ & ->)
    end.
    destruct s; cbn in *. lia.
Qed.

Lemma allocate_loop_settles (today : Z) (l : list RS.t) :
  forall r,
    Forall open_row l -> total_schedule_outstanding l <= r ->
    map RT.schedule (fst (RT.allocate_loop today r l)) = l
    /\ Forall (fun a => RS.status (RT.saved a) = "paid"
                        /\ RS.total_outstanding (RT.saved a) = 0)
         (fst (RT.allocate_loop today r l))
    /\ snd (RT.allocate_loop today r l) = r - total_schedule_outstanding l.
Proof.
  induction l as [|s l IH]; intros r Hall Hr.
  - cbn. repeat split; [constructor | lia].
  - inversion Hall as [|? ? Hs Hl]; subst.
    destruct (open_row_outstanding s Hs) as [_ Hpos].
    pose proof (open_rows_total_nonneg l Hl) as Hnn.
    rewrite total_schedule_outstanding_cons in Hr |- *.
    cbn [RT.allocate_loop].
    destruct (Z.leb_spec r 0); [lia|].
    destruct (allocate_step_open_row today r s Hs) as (a & -> & Ha & Hal & Hp & Ht);
      [lia|].
    destruct (IH (r - RT.allocated a) Hl) as (I1 & I2 & I3); [lia|].
    destruct (RT.allocate_loop today (r - RT.allocated a) l) as [d r1].
    cbn in *. repeat split; [congruence | now constructor | lia].
Qed.

(** X4.  When the open installments of the loan carry no penalty, have
    totals that are the sums of their parts and something left to pay, a
    payment of at least the sum of what they have outstanding is allocated
    to every one of them, in due-date order; each is saved with status
    paid and nothing outstanding, and what the payment exceeds the sum by
    is left over, allocated to no row. *)
Theorem full_payment_settles (today : Z) (self : RT.t) (table : list RS.t) :
  Forall open_row (RT.schedules (RT.loan self) table) ->
  total_schedule_outstanding (RT.schedules (RT.loan self) table) <= RT.amount self ->
  map RT.schedule (RT.allocations today self table)
  = RT.schedules (RT.loan self) table
  /\ Forall (fun a => RS.status (RT.saved a) = "paid"
                      /\ RS.total_outstanding (RT.saved a) = 0)
       (RT.allocations today self table)
  /\ sum_of RT.allocated (RT.allocations today self table)
     = total_schedule_outstanding (RT.schedules (RT.loan self) table).
Proof.
  intros Hall Hr. unfold RT.allocations.
  destruct (allocate_loop_settles today _ _ Hall Hr) as (H1 & H2 & H3).
  repeat split; try assumption.
  rewrite allocate_loop_remaining in H3. lia.
Qed.

Lemma full_payment_settles_witness :
  map (fun a => RS.status (RT.saved a))
    (RT.allocations 15 (payment 7 150000) [february; january])
  = ["paid"; "paid"]
  /\ sum_of RT.allocated (RT.allocations 15 (payment 7 150000) [february; january])
     = 100000.
Proof.
  destruct (full_payment_settles 15 (payment 7 150000) [february; january])
    as (H1 & H2 & H3).
  - repeat constructor; cbn; lia.
  - cbn; lia.
  - split; [|exact H3].
    inversion H2 as [|a0 l0 [Ha _] H2']. inversion H2' as [|a1 l1 [Hb _] _].
    reflexivity.
Defined.

(** ** Saving a payment again *)

(** X5.  Every save of a completed payment applies it: after a second
    save the loan has [total_paid] raised by twice the amount and its
    balances lowered twice by the payment's breakdown (clamped at zero). *)
Theorem completed_payment_applied_on_every_save
    (today : Z) (self : RT.t) (db : Loan.t * list RS.t) :
  RT.status self = "completed" ->
  let loan := fst db in
  let loan2 := fst (RT.save today self (RT.save today self db)) in
  Loan.total_paid loan2 = Loan.total_paid loan + 2 * RT.amount self
  /\ Loan.outstanding_balance loan2
     = Z.max (Z.max (Loan.outstanding_balance loan - RT.principal_amount self) 0
              - RT.principal_amount self) 0
  /\ Loan.outstanding_interest loan2
     = Z.max (Z.max (Loan.outstanding_interest loan - RT.interest_amount self) 0
              - RT.interest_amount self) 0
  /\ Loan.penalty_balance loan2
     = Z.max (Z.max (Loan.penalty_balance loan - RT.penalty_amount self) 0
              - RT.penalty_amount self) 0
  /\ snd (RT.save today self (RT.save today self db))
     = RT.allocate_to_schedules today self
         (RT.allocate_to_schedules today self (snd db)).
Proof.
  intros Hc loan loan2. subst loan loan2.
  rewrite !(save_completed today self _ Hc). cbn [fst snd].
  unfold RT.update_ledger, Loan.save.
  cbn [Loan.total_paid Loan.outstanding_balance Loan.outstanding_interest
       Loan.penalty_balance].
  repeat split; lia.
Qed.

Lemma completed_payment_applied_on_every_save_witness :
  Loan.total_paid
    (fst (RT.save 15 (payment 7 60000)
            (RT.save 15 (payment 7 60000) (loan_1200, [february; january]))))
  = 0 + 2 * 60000
  /\ map RS.status
       (snd (RT.save 15 (payment 7 60000)
               (RT.save 15 (payment 7 60000) (loan_1200, [february; january]))))
     = ["paid"; "paid"].
Proof.
  split.
  - exact (proj1 (completed_payment_applied_on_every_save 15 (payment 7 60000)
                    (loan_1200, [february; january]) eq_refl)).
  - reflexivity.
Defined.

(** * The overdue properties *)

Lemma save_status_cases (today : Z) (s : RS.t) :
  (RS.status (RS.save today s) = "paid"
   /\ RS.total_amount s + RS.penalty_outstanding s <= RS.total_paid s)
  \/ (RS.status (RS.save today s) = "partial"
      /\ RS.total_paid s < RS.total_amount s + RS.penalty_outstanding s
      /\ 0 < RS.total_paid s)
  \/ (RS.status (RS.save today s) = "overdue"
      /\ RS.total_paid s <= 0 /\ RS.due_date s < today)
  \/ (RS.status (RS.save today s) = "pending"
      /\ RS.total_paid s <= 0 /\ today <= RS.due_date s).
Proof.
  unfold RS.save, RS.update_status.
  destruct (recompute_keeps_payments s) as (-> & -> & -> & ->).
  destruct (Z.leb_spec (RS.total_amount s + RS.penalty_outstanding s)
              (RS.total_paid s)) as [H1|H1];
    [left; exact (conj eq_refl H1)|].
  destruct (Z.ltb_spec 0 (RS.total_paid s)) as [H2|H2];
    [right; left; exact (conj eq_refl (conj H1 H2))|].
  destruct (Z.ltb_spec (RS.due_date s) today) as [H3|H3];
    [right; right; left | right; right; right];
    exact (conj eq_refl (conj H2 H3)).
Qed.

Lemma save_due_date (today : Z) (s : RS.t) :
  RS.due_date (RS.save today s) = RS.due_date s
  /\ RS.loan (RS.save today s) = RS.loan s.
Proof.
  unfold RS.save, RS.update_status.
  destruct (_ <=? _); [|destruct (0 <? _); [|destruct (_ <? _)]];
    destruct s; cbn; split; reflexivity.
Qed.

Lemma is_overdue_iff (today : Z) (x : RS.t) :
  ScheduleProperty.is_overdue today x = true
  <-> RS.due_date x < today
      /\ (RS.status x = "pending" \/ RS.status x = "partial").
Proof.
  unfold ScheduleProperty.is_overdue, RT.status_in; cbn [existsb].
  rewrite andb_true_iff, !orb_true_iff, Z.ltb_lt, !String.eqb_eq.
  intuition discriminate.
Qed.

(** X6.  On a row as [save] wrote it today, [is_overdue] holds exactly
    when the row is past its due date and partly paid.  A row past its
    due date on which nothing was paid is saved with status overdue and
    is not [is_overdue]. *)
Theorem is_overdue_after_save (today : Z) (s : RS.t) :
  (ScheduleProperty.is_overdue today (RS.save today s) = true
   <-> RS.due_date s < today /\ RS.status (RS.save today s) = "partial")
  /\ (RS.total_paid s <= 0 ->
      ScheduleProperty.is_overdue today (RS.save today s) = false)
  /\ (RS.status (RS.save today s) = "overdue" ->
      RS.due_date s < today
      /\ ScheduleProperty.is_overdue today (RS.save today s) = false).
Proof.
  pose proof (is_overdue_iff today (RS.save today s)) as Hiff.
  destruct (save_due_date today s) as [Hd _]. rewrite Hd in Hiff.
  assert (Hmain : ScheduleProperty.is_overdue today (RS.save today s) = true
                  <-> RS.due_date s < today
                      /\ RS.status (RS.save today s) = "partial").
  { rewrite Hiff. split; [|tauto]. intros [Hlt [Hs|Hs]]; [|tauto].
    destruct (save_status_cases today s)
      as [[E _]|[(E & _)|[(E & _)|(E & _ & H2)]]];
      rewrite E in Hs; try discriminate. lia. }
  split; [exact Hmain|]. split.
  - intros Hnp.
    destruct (ScheduleProperty.is_overdue today (RS.save today s)) eqn:Eo;
      [|reflexivity].
    destruct (proj1 Hmain eq_refl) as [_ Hs].
    destruct (save_status_cases today s)
      as [[E _]|[(E & _ & H2)|[(E & _)|(E & _)]]];
      rewrite E in Hs; try discriminate. lia.
  - intros Hs. split.
    + destruct (save_status_cases today s)
        as [[E _]|[(E & _)|[(E & _ & H2)|(E & _)]]];
        rewrite E in Hs; try discriminate. exact H2.
    + destruct (ScheduleProperty.is_overdue today (RS.save today s)) eqn:Eo;
        [|reflexivity].
      destruct (proj1 Hmain eq_refl) as [_ Hp]. rewrite Hs in Hp. discriminate.
Qed.

Lemma is_overdue_after_save_witness :
  RS.status (RS.save 120 installment_1250) = "overdue"
  /\ ScheduleProperty.is_overdue 120 (RS.save 120 installment_1250) = false.
Proof.
  split; [reflexivity|].
  apply (proj1 (proj2 (is_overdue_after_save 120 installment_1250))).
  cbn; lia.
Defined.

Section PenaltyAmount.
Import Py.
Context {decimal : Type} `{DecimalOps decimal}.
Variable decimal_of_hundredths : Z -> decimal.
Variable PENALTY_RATE : decimal.
Variable quantize : value decimal -> result (value decimal).

(** X7.  [penalty_amount] never computes a penalty: it returns
    [Decimal('0.00')] when the installment is not [is_overdue] and raises
    [TypeError] when it is, because [days_overdue / 30] is a float that
    is multiplied with a [Decimal].  For an installment whose status is
    overdue it returns [Decimal('0.00')]. *)
Theorem penalty_amount_zero_or_TypeError (today : Z) (s : RS.t) :
  ScheduleProperty.penalty_amount decimal_of_hundredths PENALTY_RATE quantize today s
  = (if ScheduleProperty.is_overdue today s
     then raise TypeError
     else ret (Decimal (decimal_of_hundredths 0)))
  /\ (RS.status s = "overdue" ->
      ScheduleProperty.penalty_amount decimal_of_hundredths PENALTY_RATE quantize
        today s
      = ret (Decimal (decimal_of_hundredths 0))).
Proof.
  assert (Hmain :
    ScheduleProperty.penalty_amount decimal_of_hundredths PENALTY_RATE quantize
      today s
    = (if ScheduleProperty.is_overdue today s
       then raise TypeError
       else ret (Decimal (decimal_of_hundredths 0)))).
  { unfold ScheduleProperty.penalty_amount.
    destruct (ScheduleProperty.is_overdue today s); reflexivity. }
  split; [exact Hmain|].
  intros Hs. rewrite Hmain.
  destruct (ScheduleProperty.is_overdue today s) eqn:E; [|reflexivity].
  apply is_overdue_iff in E. destruct E as [_ [E|E]]; rewrite Hs in E; discriminate.
Qed.

End PenaltyAmount.

Lemma penalty_amount_zero_or_TypeError_witness :
  ScheduleProperty.penalty_amount (fun z => (z # 100)%Q) (5 # 1)%Q Py.ret
    120 installment_1250
  = Py.ret (Py.Decimal (0 # 100)%Q).
Proof.
  apply (proj2 (penalty_amount_zero_or_TypeError
                  (fun z => (z # 100)%Q) (5 # 1)%Q Py.ret 120 installment_1250)).
  reflexivity.
Defined.

(** ** Days overdue of a loan *)

Lemma due_le_trans : Relations_1.Transitive due_le.
Proof. intros x y z. unfold due_le. lia. Qed.

Lemma order_by_due_date_first (l : list RS.t) (x : RS.t) (rest : list RS.t) :
  RT.order_by_due_date l = x :: rest ->
  In x l /\ forall y, In y l -> RS.due_date x <= RS.due_date y.
Proof.
  intros E.
  pose proof (order_by_due_date_perm l) as Hp.
  pose proof (order_by_due_date_sorted l) as Hs.
  rewrite E in Hp, Hs.
  split.
  - apply (Permutation_in _ Hp). now left.
  - intros y Hy.
    apply (Permutation_in _ (Permutation_sym Hp)) in Hy.
    apply (Sorted_StronglySorted due_le_trans) in Hs.
    inversion Hs as [|? ? _ Hall]; subst.
    destruct Hy as [<-|Hy]; [lia|].
    rewrite Forall_forall in Hall. exact (Hall y Hy).
Qed.

Lemma overdue_schedules_In (today : Z) (self : Loan.t) (table : list RS.t)
    (s : RS.t) :
  In s (LoanProperty.overdue_schedules today self table)
  <-> In s table /\ RS.loan s = Loan.id self /\ RS.due_date s < today
      /\ RS.status s = "pending".
Proof.
  unfold LoanProperty.overdue_schedules.
  rewrite filter_In, !andb_true_iff, Z.eqb_eq, Z.ltb_lt, String.eqb_eq. tauto.
Qed.

(** X8.  [days_overdue] is never negative and is 0 for a loan that is
    not active.  For an active loan it is the number of days since the
    earliest due date among the loan's rows that have status pending and
    are due before today: no such row is later by more days, and a
    positive value is the lateness of one of them. *)
Theorem days_overdue_is_greatest_lateness
    (today : Z) (self : Loan.t) (table : list RS.t) :
  0 <= LoanProperty.days_overdue today self table
  /\ (Loan.status self <> "active" ->
      LoanProperty.days_overdue today self table = 0)
  /\ (Loan.status self = "active" ->
      forall s, In s table -> RS.loan s = Loan.id self ->
                RS.status s = "pending" -> RS.due_date s < today ->
                0 < today - RS.due_date s <= LoanProperty.days_overdue today self table)
  /\ (0 < LoanProperty.days_overdue today self table ->
      Loan.status self = "active"
      /\ exists s, In s table /\ RS.loan s = Loan.id self
                   /\ RS.status s = "pending" /\ RS.due_date s < today
                   /\ LoanProperty.days_overdue today self table
                      = today - RS.due_date s).
Proof.
  unfold LoanProperty.days_overdue.
  destruct (String.eqb_spec (Loan.status self) "active") as [Ha|Ha]; cbn [negb].
  2:{ split; [lia|]. split; [reflexivity|]. split; [contradiction | lia]. }
  destruct (RT.order_by_due_date (LoanProperty.overdue_schedules today self table))
    as [|x rest] eqn:E.
  - split; [lia|]. split; [reflexivity|]. split; [|lia].
    intros _ s H1 H2 H3 H4.
    assert (Hin : In s (LoanProperty.overdue_schedules today self table))
      by (apply overdue_schedules_In; auto).
    apply (Permutation_in _ (Permutation_sym (order_by_due_date_perm _))) in Hin.
    rewrite E in Hin. destruct Hin.
  - apply order_by_due_date_first in E. destruct E as [Hx Hmin].
    apply overdue_schedules_In in Hx. destruct Hx as (X1 & X2 & X3 & X4).
    split; [lia|]. split; [congruence|]. split.
    + intros _ s H1 H2 H3 H4.
      assert (Hin : In s (LoanProperty.overdue_schedules today self table))
        by (apply overdue_schedules_In; auto).
      specialize (Hmin s Hin). lia.
    + intros _. split; [assumption|]. exists x. auto.
Qed.

Lemma days_overdue_is_greatest_lateness_witness :
  0 < 40 - RS.due_date january
      <= LoanProperty.days_overdue 40 loan_1200 [february; january].
Proof.
  apply (proj1 (proj2 (proj2
           (days_overdue_is_greatest_lateness 40 loan_1200 [february; january]))));
    try reflexivity.
  right; left; reflexivity.
Defined.

Lemma days_overdue_pos_row (today : Z) (self : Loan.t) (table : list RS.t) :
  LoanProperty.days_overdue today self table = 0
  \/ exists s, In s table /\ RS.loan s = Loan.id self
               /\ RS.status s = "pending" /\ RS.due_date s < today.
Proof.
  unfold LoanProperty.days_overdue.
  destruct (negb (Loan.status self =? "active")%string); [now left|].
  destruct (RT.order_by_due_date (LoanProperty.overdue_schedules today self table))
    as [|x rest] eqn:E; [now left|].
  right. apply order_by_due_date_first in E. destruct E as [Hx _].
  apply overdue_schedules_In in Hx. destruct Hx as (X1 & X2 & X3 & X4).
  exists x. auto.
Qed.

(** X9.  When every row of the loan is as [save] wrote it today, the loan
    has no days overdue and is not [is_overdue], whatever its installments
    owe: a row past its due date was saved as overdue, partial or paid,
    and only pending rows are counted. *)
Theorem days_overdue_zero_for_saved_rows
    (today : Z) (self : Loan.t) (table : list RS.t) :
  (forall s, In s table -> RS.loan s = Loan.id self ->
             exists s0, s = RS.save today s0) ->
  LoanProperty.days_overdue today self table = 0
  /\ LoanProperty.is_overdue today self table = false.
Proof.
  intros Hsaved.
  assert (H0 : LoanProperty.days_overdue today self table = 0).
  { destruct (days_overdue_pos_row today self table) as [H|H]; [exact H|].
    destruct H as (s & H1 & H2 & H3 & H4).
    destruct (Hsaved s H1 H2) as [s0 ->].
    destruct (save_due_date today s0) as [Hd _]. rewrite Hd in H4.
    destruct (save_status_cases today s0)
      as [[E _]|[(E & _)|[(E & _)|(E & _ & Hge)]]];
      rewrite E in H3; try discriminate. lia. }
  split; [exact H0|]. unfold LoanProperty.is_overdue. now rewrite H0.
Qed.

Lemma days_overdue_zero_for_saved_rows_witness :
  RS.status (RS.save 120 installment_1250) = "overdue"
  /\ LoanProperty.days_overdue 120 loan_1250
       [RS.save 120 installment_1250; RS.save 120 (installment_500 2 2 130)] = 0.
Proof.
  split; [reflexivity|].
  apply (days_overdue_zero_for_saved_rows 120 loan_1250
           [RS.save 120 installment_1250; RS.save 120 (installment_500 2 2 130)]).
  intros s [<-|[<-|[]]] _; eexists; reflexivity.
Defined.

(** * Numbering *)

Lemma substring_skip (p s : string) (k m : nat) :
  substring (String.length p + k) m (p ++ s) = substring k m s.
Proof. induction p as [|c p IH]; cbn; [reflexivity | exact IH]. Qed.

Lemma substring_all (s : string) : substring 0 (String.length s) s = s.
Proof. induction s as [|c s IH]; cbn; [reflexivity | now rewrite IH]. Qed.

Lemma length_app_string (p s : string) :
  String.length (p ++ s) = (String.length p + String.length s)%nat.
Proof. induction p as [|c p IH]; cbn; [reflexivity | now rewrite IH]. Qed.

Lemma last4_app (p s : string) :
  (4 <= String.length s)%nat ->
  Numbering.last4 (p ++ s) = Numbering.last4 s.
Proof.
  intros H. unfold Numbering.last4. rewrite length_app_string.
  replace (String.length p + String.length s - 4)%nat
    with (String.length p + (String.length s - 4))%nat by lia.
  apply substring_skip.
Qed.

Lemma last4_four (s : string) :
  String.length s = 4%nat -> Numbering.last4 s = s.
Proof.
  intros H. unfold Numbering.last4. rewrite H. cbn [Nat.sub].
  rewrite <- H. apply substring_all.
Qed.

Lemma suffix_ok_upto_9999 :
  forallb Numbering.suffix_ok (map Z.of_nat (seq 1 (Z.to_nat 9999))) = true.
Proof. vm_compute. reflexivity. Qed.

Lemma suffix_ok_range (m : Z) :
  1 <= m <= 9999 ->
  String.length (Numbering.zfill 4 (Numbering.str m)) = 4%nat
  /\ Numbering.int (Numbering.zfill 4 (Numbering.str m)) = Some m.
Proof.
  intros Hm.
  pose proof suffix_ok_upto_9999 as H. rewrite forallb_forall in H.
  assert (Hin : In m (map Z.of_nat (seq 1 (Z.to_nat 9999)))).
  { apply in_map_iff. exists (Z.to_nat m). split; [lia|].
    apply in_seq. lia. }
  apply H in Hin. unfold Numbering.suffix_ok in Hin.
  apply andb_true_iff in Hin. destruct Hin as [H1 H2].
  apply Nat.eqb_eq in H1. split; [exact H1|].
  destruct (Numbering.int (Numbering.zfill 4 (Numbering.str m))) as [k|];
    [|discriminate].
  apply Z.eqb_eq in H2. now subst.
Qed.

Lemma int_nonneg (s : string) (n : Z) : Numbering.int s = Some n -> 0 <= n.
Proof.
  unfold Numbering.int.
  destruct (DecimalString.NilZero.uint_of_string s) as [u|]; [|discriminate].
  cbn. intros E. inversion E. unfold Z.of_uint. apply N2Z.is_nonneg.
Qed.

(** X10.  The first number of a prefix ends in 0001.  The number issued
    after one whose last four characters read [n], for [n] below 9999, is
    the prefix followed by four digits; its own last four characters are
    these digits and read [n + 1], so the numbers of a prefix count up one
    by one. *)
Theorem next_number_counts_up (prefix last : string) (n : Z) :
  Numbering.int (Numbering.last4 last) = Some n ->
  n < 9999 ->
  Numbering.next_number prefix None = Some (prefix ++ "0001")%string
  /\ exists suffix,
       Numbering.next_number prefix (Some last) = Some (prefix ++ suffix)%string
       /\ String.length suffix = 4%nat
       /\ Numbering.last4 (prefix ++ suffix) = suffix
       /\ Numbering.int (Numbering.last4 (prefix ++ suffix)) = Some (n + 1).
Proof.
  intros Hint Hn. split; [reflexivity|].
  pose proof (int_nonneg _ _ Hint) as H0.
  destruct (suffix_ok_range (n + 1)) as [Hlen Hread]; [lia|].
  exists (Numbering.zfill 4 (Numbering.str (n + 1))).
  unfold Numbering.next_number. rewrite Hint.
  split; [reflexivity|]. split; [exact Hlen|].
  assert (Hl : Numbering.last4
                 (prefix ++ Numbering.zfill 4 (Numbering.str (n + 1)))
               = Numbering.zfill 4 (Numbering.str (n + 1))).
  { rewrite last4_app by lia. now apply last4_four. }
  split; [exact Hl|]. now rewrite Hl.
Qed.

Lemma next_number_counts_up_witness :
  exists suffix,
    Numbering.next_number "TXN20240131" (Some "TXN202401310041")
    = Some ("TXN20240131" ++ suffix)%string
    /\ String.length suffix = 4%nat
    /\ Numbering.last4 ("TXN20240131" ++ suffix) = suffix
    /\ Numbering.int (Numbering.last4 ("TXN20240131" ++ suffix)) = Some (41 + 1).
Proof.
  apply (proj2 (next_number_counts_up "TXN20240131" "TXN202401310041" 41
                  eq_refl eq_refl)).
Defined.

(** X11.  After a number that ends in 9999 comes the prefix followed by
    10000, five digits; the number after that is read from its last four
    characters, 0000, and is the prefix followed by 0001 again, the first
    number of the prefix. *)
Theorem next_number_wraps_after_10000 (prefix last : string) :
  Numbering.int (Numbering.last4 last) = Some 9999 ->
  Numbering.next_number prefix (Some last) = Some (prefix ++ "10000")%string
  /\ Numbering.next_number prefix (Some (prefix ++ "10000")%string)
     = Some (prefix ++ "0001")%string
  /\ Numbering.next_number prefix (Some (prefix ++ "10000")%string)
     = Numbering.next_number prefix None.
Proof.
  intros Hint.
  assert (H2 : Numbering.next_number prefix (Some (prefix ++ "10000")%string)
               = Some (prefix ++ "0001")%string).
  { unfold Numbering.next_number.
    rewrite last4_app by (cbn; lia). reflexivity. }
  split; [|split; [exact H2 | rewrite H2; reflexivity]].
  unfold Numbering.next_number. rewrite Hint. reflexivity.
Qed.

Lemma next_number_wraps_after_10000_witness :
  Numbering.next_number "LN2024" (Some "LN20249999") = Some "LN202410000"
  /\ Numbering.next_number "LN2024" (Some "LN202410000") = Some "LN20240001".
Proof.
  destruct (next_number_wraps_after_10000 "LN2024" "LN20249999" eq_refl)
    as (H1 & H2 & _).
  exact (conj H1 H2).
Defined.

(** * Dates of a loan *)

Lemma add_days_inr (d n r : Z) :
  LoanDates.add_days d n = inr r ->
  r = d + n /\ 1 <= r <= LoanDates.max_ordinal /\ Z.abs n <= 999999999.
Proof.
  unfold LoanDates.add_days.
  destruct (Z.leb_spec (Z.abs n) 999999999);
    destruct (Z.leb_spec 1 (d + n));
    destruct (Z.leb_spec (d + n) LoanDates.max_ordinal);
    cbn; intros E; inversion E; lia.
Qed.

(** X12.  When [Loan.save] fills in the dates without error, a date that
    was given is kept, a missing first repayment date becomes the
    disbursement date plus 30 days and a missing maturity date the
    disbursement date plus 30 days per month of the term, and saving the
    result again changes nothing.  With both dates missing the maturity
    date is before the first repayment date exactly when the term is 0
    months or less. *)
Theorem loan_dates_filled_once (self self' : LoanDates.t) :
  LoanDates.save self = inr self' ->
  LoanDates.save self' = inr self'
  /\ LoanDates.disbursement_date self' = LoanDates.disbursement_date self
  /\ LoanDates.term_months self' = LoanDates.term_months self
  /\ (forall f, LoanDates.first_repayment_date self = Some f ->
                LoanDates.first_repayment_date self' = Some f)
  /\ (forall m, LoanDates.maturity_date self = Some m ->
                LoanDates.maturity_date self' = Some m)
  /\ (forall d, LoanDates.disbursement_date self = Some d ->
                (LoanDates.first_repayment_date self = None ->
                 LoanDates.first_repayment_date self' = Some (d + 30))
                /\ (LoanDates.maturity_date self = None ->
                    LoanDates.maturity_date self'
                    = Some (d + LoanDates.term_months self * 30))
                /\ (LoanDates.first_repayment_date self = None ->
                    LoanDates.maturity_date self = None ->
                    forall f m,
                      LoanDates.first_repayment_date self' = Some f ->
                      LoanDates.maturity_date self' = Some m ->
                      (m < f <-> LoanDates.term_months self <= 0))).
Proof.
  destruct self as [term [d|] [f|] [m|]]; unfold LoanDates.save; cbn;
    try (intros E; inversion E; subst; cbn;
         repeat split; intros; try discriminate; try congruence; fail).
  - destruct (LoanDates.add_days d (term * 30)) as [e|m] eqn:Em;
      intros E; inversion E; subst; cbn.
    apply add_days_inr in Em. destruct Em as (-> & _).
    repeat split; intros; try discriminate; try congruence.
  - destruct (LoanDates.add_days d 30) as [e|f] eqn:Ef;
      intros E; inversion E; subst; cbn.
    apply add_days_inr in Ef. destruct Ef as (-> & _).
    repeat split; intros; try discriminate; try congruence.
  - destruct (LoanDates.add_days d (term * 30)) as [e|m] eqn:Em;
      [intros E; inversion E|].
    destruct (LoanDates.add_days d 30) as [e|f] eqn:Ef;
      intros E; inversion E; subst; cbn.
    apply add_days_inr in Em. destruct Em as (-> & _).
    apply add_days_inr in Ef. destruct Ef as (-> & _).
    repeat split; intros; try discriminate; try congruence;
      match goal with
      | H1 : Some _ = Some _, H2 : Some _ = Some _ |- _ =>
          inversion H1; inversion H2; subst; lia
      end.
Qed.

Lemma loan_dates_filled_once_witness :
  LoanDates.save (LoanDates.mk 12 (Some 738000) None None)
  = inr (LoanDates.mk 12 (Some 738000) (Some 738030) (Some 738360))
  /\ LoanDates.save (LoanDates.mk 12 (Some 738000) (Some 738030) (Some 738360))
     = inr (LoanDates.mk 12 (Some 738000) (Some 738030) (Some 738360)).
Proof.
  split; [reflexivity|].
  exact (proj1 (loan_dates_filled_once
                  (LoanDates.mk 12 (Some 738000) None None) _ eq_refl)).
Defined.

(** * Fee and repayment of a loan application *)

Section RepaymentProperties.
Import Py.
Context {decimal : Type} `{DecimalOps decimal}.

Lemma calculated_interest_not_reducing (self : LoanApplication.t decimal) :
  LoanApplication.interest_calculation_method (LoanApplication.loan_type self)
  <> "reducing" ->
  LoanApplication.calculated_interest self = raise TypeError.
Proof.
  intros Hm. unfold LoanApplication.calculated_interest.
  destruct (String.eqb_spec
              (LoanApplication.interest_calculation_method
                 (LoanApplication.loan_type self)) "flat"); [reflexivity|].
  destruct (String.eqb_spec
              (LoanApplication.interest_calculation_method
                 (LoanApplication.loan_type self)) "reducing");
    [contradiction | reflexivity].
Qed.

Lemma amount_or_base_amount (self : LoanApplication.t decimal) :
  Repayment.amount_or self = LoanApplication.base_amount self.
Proof.
  unfold Repayment.amount_or, LoanApplication.base_amount, LoanApplication.truthy.
  destruct (LoanApplication.approved_amount self) as [a|]; [|reflexivity].
  now destruct (is_zero a).
Qed.

(** X13.  [processing_fee] always returns the amount times the hundredth
    of the fee rate.  For every interest method other than reducing,
    [total_repayment] and [monthly_repayment] return no value: the
    [TypeError] of [calculated_interest] comes through both. *)
Theorem repayment_raises_with_interest (self : LoanApplication.t decimal) :
  Repayment.processing_fee self
  = ret (Decimal
           (dec_mul (LoanApplication.base_amount self)
              (dec_div
                 (LoanApplication.processing_fee_rate (LoanApplication.loan_type self))
                 (of_int 100))))
  /\ (LoanApplication.interest_calculation_method (LoanApplication.loan_type self)
      <> "reducing" ->
      Repayment.total_repayment self = raise TypeError
      /\ Repayment.monthly_repayment self = inl (Repayment.Raised TypeError)).
Proof.
  split.
  - unfold Repayment.processing_fee. now rewrite amount_or_base_amount.
  - intros Hm. unfold Repayment.monthly_repayment, Repayment.total_repayment.
    rewrite (calculated_interest_not_reducing self Hm). split; reflexivity.
Qed.

(** X14.  With the reducing method [monthly_repayment] divides the amount
    plus the interest by [term_months]: for a term of 0 months it returns
    no value but raises [DivisionByZero], or [InvalidOperation] when the
    total is zero; for any other term it returns the quotient. *)
Theorem monthly_repayment_reducing (self : LoanApplication.t decimal) :
  LoanApplication.interest_calculation_method (LoanApplication.loan_type self)
  = "reducing" ->
  let amount := LoanApplication.base_amount self in
  let interest :=
    dec_mul
      (dec_mul amount
         (dec_div
            (dec_div (LoanApplication.interest_rate (LoanApplication.loan_type self))
               (of_int 100))
            (of_int 12)))
      (of_int (LoanApplication.term_months self)) in
  let total := dec_add amount interest in
  Repayment.total_repayment self = ret (Decimal total)
  /\ (LoanApplication.term_months self = 0 ->
      Repayment.monthly_repayment self
      = inl (if is_zero total then Repayment.InvalidOperation
             else Repayment.DivisionByZero))
  /\ (LoanApplication.term_months self <> 0 ->
      Repayment.monthly_repayment self
      = inr (Decimal (dec_div total (of_int (LoanApplication.term_months self))))).
Proof.
  intros Hm amount interest total.
  assert (Ht : Repayment.total_repayment self = ret (Decimal total)).
  { unfold Repayment.total_repayment.
    rewrite (calculated_interest_reducing self Hm), amount_or_base_amount.
    reflexivity. }
  split; [exact Ht|].
  unfold Repayment.monthly_repayment. rewrite Ht. unfold ret, Repayment.divide.
  split; intros Hz.
  - rewrite Hz. reflexivity.
  - destruct (Z.eqb_spec (LoanApplication.term_months self) 0);
      [contradiction | reflexivity].
Qed.

End RepaymentProperties.

Lemma repayment_raises_with_interest_witness :
  Repayment.total_repayment (application "flat") = Py.raise Py.TypeError
  /\ Repayment.monthly_repayment (application "compound")
     = inl (Repayment.Raised Py.TypeError).
Proof.
  split.
  - apply (proj2 (repayment_raises_with_interest (application "flat"))).
    cbn; discriminate.
  - apply (proj2 (repayment_raises_with_interest (application "compound"))).
    cbn; discriminate.
Defined.

Lemma monthly_repayment_reducing_witness :
  Repayment.monthly_repayment
    (LoanApplication.mk
       (LoanApplication.mk_loan_type (12 # 1)%Q "reducing" (1 # 1)%Q)
       (1000 # 1)%Q None 0)
  = inl Repayment.DivisionByZero.
Proof.
  exact (proj1 (proj2 (monthly_repayment_reducing
                         (LoanApplication.mk
                            (LoanApplication.mk_loan_type (12 # 1)%Q "reducing" (1 # 1)%Q)
                            (1000 # 1)%Q None 0) eq_refl)) eq_refl).
Defined.

(** * Admin actions *)

Lemma active_count_after (st : string) (queryset : list Loan.t) :
  st <> "active" ->
  LoanActions.active_count
    (map (fun l => if (Loan.status l =? "active")%string
                   then Loan.set_status st l else l) queryset) = 0.
Proof.
  intros Hst. unfold LoanActions.active_count.
  induction queryset as [|l q IH]; [reflexivity|].
  cbn [map filter].
  destruct (String.eqb_spec (Loan.status l) "active") as [E|E].
  - cbn [Loan.set_status Loan.status].
    destruct (String.eqb_spec st "active"); [contradiction | exact IH].
  - destruct (String.eqb_spec (Loan.status l) "active"); [contradiction | exact IH].
Qed.

Lemma no_active_unchanged (st : string) (queryset : list Loan.t) :
  LoanActions.active_count queryset = 0 ->
  map (fun l => if (Loan.status l =? "active")%string
                then Loan.set_status st l else l) queryset = queryset.
Proof.
  unfold LoanActions.active_count.
  induction queryset as [|l q IH]; [reflexivity|].
  cbn [map filter].
  destruct (Loan.status l =? "active")%string.
  - cbn [List.length]. lia.
  - intros H. now rewrite IH.
Qed.

(** X15.  [mark_as_completed] and [mark_as_defaulted] report the number
    of active loans among the rows, keep every loan that is not active as
    it is, and leave no active loan behind: either action run after one
    of them updates no row, so a loan completed by the action cannot then
    be defaulted by the other, nor the reverse. *)
Theorem loan_actions_touch_active_only (queryset : list Loan.t) :
  let completed := LoanAdmin.mark_as_completed queryset in
  let defaulted := LoanActions.mark_as_defaulted queryset in
  snd completed = LoanActions.active_count queryset
  /\ snd defaulted = LoanActions.active_count queryset
  /\ (forall i l, nth_error queryset i = Some l -> Loan.status l <> "active" ->
        nth_error (fst completed) i = Some l
        /\ nth_error (fst defaulted) i = Some l)
  /\ LoanActions.mark_as_defaulted (fst completed) = (fst completed, 0)
  /\ LoanAdmin.mark_as_completed (fst completed) = (fst completed, 0)
  /\ LoanAdmin.mark_as_completed (fst defaulted) = (fst defaulted, 0)
  /\ LoanActions.mark_as_defaulted (fst defaulted) = (fst defaulted, 0).
Proof.
  intros completed defaulted. subst completed defaulted.
  unfold LoanAdmin.mark_as_completed, LoanActions.mark_as_defaulted.
  cbn [fst snd].
  assert (Hc := active_count_after "completed" queryset ltac:(discriminate)).
  assert (Hd := active_count_after "defaulted" queryset ltac:(discriminate)).
  split; [reflexivity|]. split; [reflexivity|]. split.
  - intros i l Hi Hl. rewrite !nth_error_map, Hi. cbn.
    destruct (String.eqb_spec (Loan.status l) "active"); [contradiction|].
    split; reflexivity.
  - fold (LoanActions.active_count
            (map (fun l => if (Loan.status l =? "active")%string
                           then Loan.set_status "completed" l else l) queryset)).
    fold (LoanActions.active_count
            (map (fun l => if (Loan.status l =? "active")%string
                           then Loan.set_status "defaulted" l else l) queryset)).
    rewrite Hc, Hd.
    rewrite !(no_active_unchanged _ _ Hc), !(no_active_unchanged _ _ Hd).
    repeat split; reflexivity.
Qed.

Lemma loan_actions_touch_active_only_witness :
  LoanActions.mark_as_defaulted (fst (LoanAdmin.mark_as_completed [loan_1200; loan_5600]))
  = (fst (LoanAdmin.mark_as_completed [loan_1200; loan_5600]), 0).
Proof.
  exact (proj1 (proj2 (proj2 (proj2
           (loan_actions_touch_active_only [loan_1200; loan_5600]))))).
Defined.

(** ** The workflow of loan applications *)

Lemma run_is_map (act : ApplicationAdmin.action) (queryset : list ApplicationAdmin.t) :
  ApplicationAdmin.run act queryset = map (ApplicationAdmin.step act) queryset.
Proof. destruct act; reflexivity. Qed.

Lemma run_all_nth (acts : list ApplicationAdmin.action) :
  forall (queryset : list ApplicationAdmin.t) (i : nat) (a : ApplicationAdmin.t),
    nth_error queryset i = Some a ->
    nth_error (ApplicationAdmin.run_all acts queryset) i
    = Some (fold_left (fun x act => ApplicationAdmin.step act x) acts a).
Proof.
  unfold ApplicationAdmin.run_all.
  induction acts as [|act acts IH]; intros q i a Hi; cbn; [exact Hi|].
  apply IH. rewrite run_is_map, nth_error_map, Hi. reflexivity.
Qed.

Lemma step_status (act : ApplicationAdmin.action) (a : ApplicationAdmin.t) :
  (ApplicationAdmin.status a <> "submitted" ->
   ApplicationAdmin.status a <> "under_review" ->
   ApplicationAdmin.status (ApplicationAdmin.step act a) = ApplicationAdmin.status a)
  /\ (ApplicationAdmin.status a = "under_review" ->
      ApplicationAdmin.status (ApplicationAdmin.step act a) = "under_review"
      \/ ApplicationAdmin.status (ApplicationAdmin.step act a) = "approved"
      \/ ApplicationAdmin.status (ApplicationAdmin.step act a) = "rejected")
  /\ (ApplicationAdmin.status a = "submitted" ->
      (ApplicationAdmin.status (ApplicationAdmin.step act a) = "submitted"
       /\ ApplicationAdmin.is_review act = false)
      \/ (ApplicationAdmin.status (ApplicationAdmin.step act a) = "under_review"
          /\ ApplicationAdmin.is_review act = true)).
Proof.
  destruct act; cbn;
    destruct (String.eqb_spec (ApplicationAdmin.status a) "under_review") as [E|E];
    destruct (String.eqb_spec (ApplicationAdmin.status a) "submitted") as [E'|E'];
    cbn; repeat split; intros; try congruence; auto;
    try (rewrite E in E'; discriminate).
Qed.

(** X16.  Whatever actions are run on loan applications, in whatever
    order, a row whose status is neither submitted nor under review
    (draft, approved, rejected, cancelled, disbursed) keeps its status; a
    row under review stays so or becomes approved or rejected; and a
    submitted row stays submitted unless one of the actions is
    [mark_under_review]: approving does not approve a submitted
    application. *)
Theorem application_workflow
    (acts : list ApplicationAdmin.action) (queryset : list ApplicationAdmin.t)
    (i : nat) (a : ApplicationAdmin.t) :
  nth_error queryset i = Some a ->
  exists a',
    nth_error (ApplicationAdmin.run_all acts queryset) i = Some a'
    /\ (ApplicationAdmin.status a <> "submitted" ->
        ApplicationAdmin.status a <> "under_review" ->
        ApplicationAdmin.status a' = ApplicationAdmin.status a)
    /\ (ApplicationAdmin.status a = "under_review" ->
        ApplicationAdmin.status a' = "under_review"
        \/ ApplicationAdmin.status a' = "approved"
        \/ ApplicationAdmin.status a' = "rejected")
    /\ (ApplicationAdmin.status a = "submitted" ->
        existsb ApplicationAdmin.is_review acts = false ->
        ApplicationAdmin.status a' = "submitted").
Proof.
  intros Hi. eexists. split; [apply run_all_nth; exact Hi|].
  clear Hi queryset i. revert a.
  induction acts as [|act acts IH]; intros a; cbn [fold_left].
  - repeat split; auto.
  - destruct (step_status act a) as (S1 & S2 & S3).
    destruct (IH (ApplicationAdmin.step act a)) as (I1 & I2 & I3).
    split; [|split].
    + intros H1 H2. rewrite <- (S1 H1 H2). apply I1; rewrite (S1 H1 H2); assumption.
    + intros Hu. destruct (S2 Hu) as [E|[E|E]].
      * apply I2; exact E.
      * right; left. rewrite <- E. apply I1; rewrite E; discriminate.
      * right; right. rewrite <- E. apply I1; rewrite E; discriminate.
    + intros Hs Hno. cbn in Hno. apply orb_false_iff in Hno. destruct Hno as [Hr Hrest].
      destruct (S3 Hs) as [[E _]|[_ E]]; [|congruence].
      apply I3; assumption.
Qed.

Lemma application_workflow_witness :
  exists a',
    nth_error
      (ApplicationAdmin.run_all [ApplicationAdmin.Approve 5; ApplicationAdmin.Assign 5]
         [ApplicationAdmin.mk "submitted" None None None]) 0 = Some a'
    /\ ApplicationAdmin.status a' = "submitted".
Proof.
  destruct (application_workflow
              [ApplicationAdmin.Approve 5; ApplicationAdmin.Assign 5]
              [ApplicationAdmin.mk "submitted" None None None] 0 _ eq_refl)
    as (a' & H1 & _ & _ & H4).
  exists a'. split; [exact H1|]. apply H4; reflexivity.
Defined.

(** * Early settlement *)

Lemma settlement_discount (loan : Loan.t) (self : EarlyRepayment.t) :
  EarlyRepayment.early_settlement_discount
    (EarlyRepayment.calculate_settlement_amount loan self)
  = Dec.mk (10 * Loan.outstanding_interest loan) 4.
Proof.
  unfold EarlyRepayment.calculate_settlement_amount, Dec.mul, Dec.of_hundredths.
  cbn [EarlyRepayment.early_settlement_discount Dec.coefficient Dec.places Nat.add].
  f_equal. lia.
Qed.

Lemma settlement_total (loan : Loan.t) (self : EarlyRepayment.t) :
  EarlyRepayment.total_settlement_amount
    (EarlyRepayment.calculate_settlement_amount loan self)
  = Dec.mk (100 * Loan.combined_outstanding loan
            - 10 * Loan.outstanding_interest loan) 4.
Proof.
  unfold EarlyRepayment.calculate_settlement_amount, Dec.add, Dec.sub, Dec.mul,
    Dec.rescale, Dec.of_hundredths, Loan.combined_outstanding.
  cbn [EarlyRepayment.total_settlement_amount Dec.coefficient Dec.places
       Nat.add Nat.max Nat.sub].
  change (10 ^ Z.of_nat 0) with 1. change (10 ^ Z.of_nat 2) with 100.
  f_equal. lia.
Qed.

(** X17.  The settlement computed for a loan is a decimal with four
    places: the combined outstanding of the loan less the discount, a
    tenth of the outstanding interest.  Computed on the ledger left by any
    processed payment, whose balances are not negative, the discount is
    not negative and the settlement lies between zero and the combined
    outstanding. *)
Theorem settlement_is_outstanding_less_discount
    (loan : Loan.t) (self : EarlyRepayment.t) (payment : RT.t) :
  let e := EarlyRepayment.calculate_settlement_amount loan self in
  let e' := EarlyRepayment.calculate_settlement_amount
              (RT.update_ledger payment loan) self in
  EarlyRepayment.status e = "calculated"
  /\ EarlyRepayment.early_settlement_discount e
     = Dec.mk (10 * Loan.outstanding_interest loan) 4
  /\ EarlyRepayment.total_settlement_amount e
     = Dec.mk (100 * Loan.combined_outstanding loan
               - 10 * Loan.outstanding_interest loan) 4
  /\ (Dec.to_Q (EarlyRepayment.total_settlement_amount e)
      == inject_Z (Loan.combined_outstanding loan) / 100
         - inject_Z (Loan.outstanding_interest loan) / 1000)%Q
  /\ 0 <= Dec.coefficient (EarlyRepayment.early_settlement_discount e')
  /\ 0 <= Dec.coefficient (EarlyRepayment.total_settlement_amount e')
     <= 100 * Loan.combined_outstanding (RT.update_ledger payment loan).
Proof.
  intros e e'. subst e e'.
  rewrite !settlement_discount, !settlement_total.
  split; [reflexivity|]. split; [reflexivity|]. split; [reflexivity|]. split.
  - unfold Dec.to_Q. cbn [Dec.coefficient Dec.places].
    change (10 ^ Z.of_nat 4) with 10000.
    unfold Qeq, Qminus, Qplus, Qopp, Qdiv, Qmult, Qinv, inject_Z.
    cbn [Qnum Qden Z.of_nat]. cbn -[Z.mul Z.add Z.sub Z.opp]. lia.
  - cbn [Dec.coefficient].
    unfold RT.update_ledger, Loan.save, Loan.combined_outstanding.
    cbn [Loan.outstanding_balance Loan.outstanding_interest Loan.penalty_balance].
    lia.
Qed.

(** * Saving an installment again *)

Lemma save_mk (today id loan num due pa ia ta pp ip penp tp po io pen tout : Z)
    (st : string) (pd : option Z) (od : Z) :
  RS.save today
    (RS.mk id loan num due pa ia ta pp ip penp tp po io pen tout st pd od)
  = if ta + pen <=? tp then
      RS.mk id loan num due pa ia ta pp ip penp tp (pa - pp) (ia - ip) pen
        (pa - pp + (ia - ip) + pen - penp) "paid"
        (match pd with None => Some today | Some d => Some d end) od
    else if 0 <? tp then
      RS.mk id loan num due pa ia ta pp ip penp tp (pa - pp) (ia - ip) pen
        (pa - pp + (ia - ip) + pen - penp) "partial" pd od
    else if due <? today then
      RS.mk id loan num due pa ia ta pp ip penp tp (pa - pp) (ia - ip) pen
        (pa - pp + (ia - ip) + pen - penp) "overdue" pd (today - due)
    else
      RS.mk id loan num due pa ia ta pp ip penp tp (pa - pp) (ia - ip) pen
        (pa - pp + (ia - ip) + pen - penp) "pending" pd od.
Proof. reflexivity. Qed.

(** X18.  Saving a row a second time on the same day changes nothing.
    Saved again on any other day, a row that was saved as paid or partial
    keeps its status and its payment date. *)
Theorem schedule_save_idempotent (today later : Z) (s : RS.t) :
  RS.save today (RS.save today s) = RS.save today s
  /\ (RS.status (RS.save today s) = "paid"
      \/ RS.status (RS.save today s) = "partial" ->
      RS.status (RS.save later (RS.save today s)) = RS.status (RS.save today s)
      /\ RS.payment_date (RS.save later (RS.save today s))
         = RS.payment_date (RS.save today s)).
Proof.
  destruct s as [id loan num due pa ia ta pp ip penp tp po io pen tout st pd od].
  rewrite (save_mk today).
  destruct (ta + pen <=? tp) eqn:E1;
    [|destruct (0 <? tp) eqn:E2; [|destruct (due <? today) eqn:E3]];
    rewrite !save_mk, ?E1, ?E2, ?E3.
  - split; [destruct pd; reflexivity|]. intros _. destruct pd; split; reflexivity.
  - split; [reflexivity|]. intros _. split; reflexivity.
  - split; [reflexivity|]. intros [H|H]; discriminate H.
  - split; [reflexivity|]. intros [H|H]; discriminate H.
Qed.

Lemma schedule_save_idempotent_witness :
  RS.status (RS.save 300 (RS.save 15 (RS.add_payments 0 10000 0 february)))
  = "partial".
Proof.
  apply (proj2 (schedule_save_idempotent 15 300
                  (RS.add_payments 0 10000 0 february))).
  right. reflexivity.
Defined.

(** X19.  A row that is allocated something does not stay pending or
    overdue: when its outstanding columns are the ones [save] computes
    and, like its paid columns, are not negative, the allocation is
    positive and the row is saved as partial or paid. *)
Theorem allocated_row_becomes_partial_or_paid
    (today : Z) (self : RT.t) (table : list RS.t) (a : RT.allocation) :
  In a (RT.allocations today self table) ->
  saved_row (RT.schedule a) ->
  0 <= RS.penalty_outstanding (RT.schedule a) ->
  0 <= RS.interest_outstanding (RT.schedule a) ->
  0 <= RS.principal_outstanding (RT.schedule a) ->
  0 <= RS.penalty_paid (RT.schedule a) ->
  0 <= RS.total_paid (RT.schedule a) ->
  0 < RT.allocated a
  /\ (RS.status (RT.saved a) = "partial" \/ RS.status (RT.saved a) = "paid").
Proof.
  unfold RT.allocations. intros Hin (S1 & S2 & S3) Hpen Hio Hpo Hpp Htp.
  apply allocate_loop_In in Hin. destruct Hin as (_ & r' & Hr' & E).
  apply allocate_step_Some in E. destruct E as [Hp E].
  set (s := RT.schedule a) in *.
  assert (Hpos : 0 < RT.allocated a).
  { rewrite E. unfold RT.allocated, RT.waterfall, RT.schedule_outstanding in *.
    cbn [RT.penalty_payment RT.interest_payment RT.principal_payment]. lia. }
  split; [exact Hpos|].
  rewrite E at 1 2. unfold RT.waterfall at 1 2. cbn [RT.saved].
  match goal with |- context [RS.save today ?x] =>
    destruct (save_status_cases today x)
      as [[Es _]|[(Es & _)|[(Es & Hz & _)|(Es & Hz & _)]]]
  end; try (right; exact Es); try (left; exact Es); exfalso;
    rewrite E in Hpos; unfold RT.allocated, RT.waterfall in Hpos;
    cbn [RT.penalty_payment RT.interest_payment RT.principal_payment] in Hpos;
    cbn [RS.add_payments RS.total_paid] in Hz; lia.
Qed.

Lemma allocated_row_becomes_partial_or_paid_witness :
  let a := RT.waterfall 120 128000 installment_1250 in
  0 < RT.allocated a
  /\ (RS.status (RT.saved a) = "partial" \/ RS.status (RT.saved a) = "paid").
Proof.
  assert (H : In (RT.waterfall 120 128000 installment_1250)
                (RT.allocations 120 (payment 7 128000) penalty_then_later))
    by (left; reflexivity).
  apply (allocated_row_becomes_partial_or_paid 120 _ _ _ H).
  - cbn. repeat split; reflexivity.
  - cbn; lia.
  - cbn; lia.
  - cbn; lia.
  - cbn; lia.
  - cbn; lia.
Defined.

(** * The table after an allocation *)

Lemma filter_keys_distinct (keep : RS.t -> bool) (rows : list RS.t) :
  NoDup (map RS.id rows) -> NoDup (map RS.id (filter keep rows)).
Proof.
  induction rows as [|row rows IH]; cbn [filter map]; [trivial|].
  rewrite NoDup_cons_iff. intros [Hfresh Hrest].
  destruct (keep row); cbn [map]; [|exact (IH Hrest)].
  apply NoDup_cons; [|exact (IH Hrest)].
  intros Hin. apply Hfresh. clear - Hin.
  induction rows as [|r rows IHr]; cbn [filter map] in *; [exact Hin|].
  destruct (keep r); cbn [map In] in *; tauto.
Qed.

Lemma schedules_NoDup (loan_id : Z) (table : list RS.t) :
  NoDup (map RS.id table) -> NoDup (map RS.id (RT.schedules loan_id table)).
Proof.
  intros Hnd. unfold RT.schedules.
  eapply Permutation_NoDup;
    [apply Permutation_map, Permutation_sym, order_by_due_date_perm|].
  now apply filter_keys_distinct.
Qed.

Lemma allocate_loop_NoDup (today : Z) (l : list RS.t) :
  forall r,
    NoDup (map RS.id l) ->
    NoDup (map (fun a => RS.id (RT.saved a)) (fst (RT.allocate_loop today r l))).
Proof.
  induction l as [|s l IH]; intros r Hnd; cbn; [constructor|].
  inversion Hnd as [|? ? Hnot Hnd']; subst.
  destruct (Z.leb_spec r 0); [constructor|].
  destruct (RT.allocate_step today r s) as [a|] eqn:E; [|now apply IH].
  pose proof (IH (r - RT.allocated a) Hnd') as Hrest.
  pose proof (allocate_loop_In today (r - RT.allocated a) l) as HIn.
  pose proof (allocate_loop_saved_id today (r - RT.allocated a) l) as Hid.
  destruct (RT.allocate_loop today (r - RT.allocated a) l) as [d r1].
  cbn in *. constructor; [|exact Hrest].
  intros Hin. apply in_map_iff in Hin. destruct Hin as (b & Hb & Hbin).
  apply Hnot. apply in_map_iff. exists (RT.schedule b).
  destruct (HIn b Hbin) as [Hbl _]. split; [|exact Hbl].
  rewrite <- (Hid b Hbin), Hb.
  apply allocate_step_Some in E. destruct E as [_ ->].
  destruct (waterfall_saved_paid today
              (Z.min r (RT.schedule_outstanding s)) s) as (_ & _ & _ & _ & -> & _).
  reflexivity.
Qed.

Lemma find_unique_key (done : list RT.allocation) (a : RT.allocation) :
  NoDup (map (fun a => RS.id (RT.saved a)) done) ->
  In a done ->
  find (fun b => RS.id (RT.saved b) =? RS.id (RT.saved a)) done = Some a.
Proof.
  induction done as [|b done IH]; cbn; [tauto|].
  intros Hnd Hin. inversion Hnd as [|? ? Hnot Hnd']; subst.
  destruct Hin as [->|Hin].
  - now rewrite Z.eqb_refl.
  - destruct (Z.eqb_spec (RS.id (RT.saved b)) (RS.id (RT.saved a))) as [E|E];
      [|now apply IH].
    elim Hnot. rewrite E. apply in_map_iff. now exists a.
Qed.

(** X21.  Where the primary keys of the table are distinct, every row
    that a payment is allocated to stands in the table afterwards as the
    allocator saved it, in the place it had. *)
Theorem allocated_rows_are_written
    (today : Z) (self : RT.t) (table : list RS.t) (a : RT.allocation) (i : nat) :
  NoDup (map RS.id table) ->
  In a (RT.allocations today self table) ->
  nth_error table i = Some (RT.schedule a) ->
  nth_error (RT.allocate_to_schedules today self table) i = Some (RT.saved a).
Proof.
  intros Hnd Hin Hi. unfold RT.allocate_to_schedules, RT.write_back.
  rewrite nth_error_map, Hi. cbn. f_equal.
  unfold RT.allocations in *.
  rewrite <- (allocate_loop_saved_id today _ _ a Hin).
  rewrite (find_unique_key _ a); [reflexivity | | exact Hin].
  apply allocate_loop_NoDup. now apply schedules_NoDup.
Qed.

Lemma allocated_rows_are_written_witness :
  option_map RS.status
    (nth_error (RT.allocate_to_schedules 120 (payment 7 128000) penalty_then_later) 1)
  = Some "paid".
Proof.
  assert (H : In (RT.waterfall 120 128000 installment_1250)
                (RT.allocations 120 (payment 7 128000) penalty_then_later))
    by (left; reflexivity).
  assert (Hnd : NoDup (map RS.id penalty_then_later)).
  { cbn. repeat constructor; cbn; intuition discriminate. }
  rewrite (allocated_rows_are_written 120 (payment 7 128000) penalty_then_later
             _ 1 Hnd H eq_refl).
  reflexivity.
Defined.

(** * Allocation beyond what an installment owes *)

(** C5, the failure.  [save] keeps [total_outstanding] as principal and
    interest outstanding plus the penalty charged less the penalty paid,
    so it is what the row owes, unpaid penalty included.  The allocator
    adds [penalty_outstanding] to it once more and caps the penalty part at
    the penalty charged, not at what is left of it.  For a row with the
    columns [save] computes, on which part of the penalty was paid, a
    payment that covers principal, interest and the whole penalty is
    allocated in full: the row receives [penalty_paid] more than its
    [total_outstanding] and is saved owing minus [penalty_paid]. *)
Theorem allocation_exceeds_outstanding_by_penalty_paid
    (today remaining : Z) (s : RS.t) :
  saved_row s ->
  0 <= RS.principal_outstanding s ->
  0 <= RS.interest_outstanding s ->
  0 < RS.penalty_paid s <= RS.penalty_outstanding s ->
  RS.principal_outstanding s + RS.interest_outstanding s
  + RS.penalty_outstanding s <= remaining ->
  exists a,
    RT.allocate_step today remaining s = Some a
    /\ RT.penalty_payment a = RS.penalty_outstanding s
    /\ RT.interest_payment a = RS.interest_outstanding s
    /\ RT.principal_payment a = RS.principal_outstanding s
    /\ RT.penalty_payment a + RT.interest_payment a + RT.principal_payment a
       = RS.total_outstanding s + RS.penalty_paid s
    /\ RS.total_outstanding s
       < RT.penalty_payment a + RT.interest_payment a + RT.principal_payment a
    /\ RS.total_outstanding (RT.saved a) = - RS.penalty_paid s.
Proof.
  intros (S1 & S2 & S3) Hpo Hio [Hpp0 Hpp] Hr.
  unfold RT.allocate_step.
  assert (Hso : RS.principal_outstanding s + RS.interest_outstanding s
                + RS.penalty_outstanding s <= RT.schedule_outstanding s)
    by (unfold RT.schedule_outstanding; lia).
  destruct (Z.ltb_spec 0 (Z.min remaining (RT.schedule_outstanding s)));
    [|lia].
  eexists. split; [reflexivity|].
  unfold RT.waterfall.
  cbn [RT.saved RT.penalty_payment RT.interest_payment RT.principal_payment].
  match goal with |- context [RS.save today ?x] =>
    destruct (save_columns today x)
      as (_ & _ & _ & _ & _ & _ & _ & _ & _ & _ & ->)
  end.
  cbn [RS.add_payments RS.principal_amount RS.interest_amount RS.principal_paid
       RS.interest_paid RS.penalty_paid RS.penalty_outstanding].
  repeat split; lia.
Qed.

Lemma allocation_exceeds_outstanding_by_penalty_paid_witness :
  pay_installment 120 30000 installment_1250 = Some installment_950
  /\ RS.total_outstanding installment_950 = 95000
  /\ exists a,
       RT.allocate_step 120 200000 installment_950 = Some a
       /\ RT.penalty_payment a + RT.interest_payment a + RT.principal_payment a
          = 95000 + 5000
       /\ RS.total_outstanding (RT.saved a) = - 5000.
Proof.
  split; [reflexivity|]. split; [reflexivity|].
  destruct (allocation_exceeds_outstanding_by_penalty_paid 120 200000
              installment_950)
    as (a & Ha & _ & _ & _ & Hsum & _ & Hout).
  - cbn. repeat split; reflexivity.
  - cbn; lia.
  - cbn; lia.
  - cbn; lia.
  - cbn; lia.
  - exists a. exact (conj Ha (conj Hsum Hout)).
Defined.
